(** * Labelling session controller: the redux thunks of [ui/src/actions/index.js]
    the mode handlers of the navigation bar and the class buttons of the
    bounding box view.

    The asynchronous action creators are embedded as command lists: a thunk
    dispatches plain actions, writes to the console and issues [fetch]
    requests; each request carries the continuation that the promise chain
    [.then(...).then(...).catch(...)] runs once the request settles.  The
    redux store is threaded explicitly; its reducer is not part of the
    sources and is a parameter of the semantics. *)

From Stdlib Require Import List String Ascii ZArith Bool Arith Lia DecimalString.
Import ListNotations.
Open Scope string_scope.

(** ** JavaScript values *)

(** The numbers of the model are the safe integers, of magnitude at most
    [2^53 - 1]: on these a JSON integer literal, the number it parses to
    and the decimal text [ToString] prints agree.  Fractions and larger
    magnitudes have no representation here. *)
Record safe_integer : Type :=
  { integer : Z;
    is_safe : (Z.abs integer <=? 9007199254740991)%Z = true }.

(** The values that flow through the actions: parsed JSON payloads, item ids,
    judgements. *)
#[warnings="-register-all"]
Inductive value : Type :=
| VUndefined
| VNull
| VBool (b : bool)
| VNum (n : safe_integer)
| VStr (s : string)
| VArr (elems : list value)
| VObj (fields : list (string * value)).

(** Completion of an evaluation: a normal value, or a thrown [Error] of which
    only [error.message] is ever read by the handlers of this module.  A
    settled promise is a completion as well: fulfilled or rejected. *)
Definition completion (A : Type) : Type := (string + A)%type.

Definition Normal {A : Type} (a : A) : completion A := inr a.
Definition Throw {A : Type} (message : string) : completion A := inl message.

Definition bind {A B : Type} (c : completion A) (f : A -> completion B)
  : completion B :=
  match c with
  | inl message => inl message
  | inr a => f a
  end.

Notation "x <- c ;; k" := (bind c (fun x => k))
  (at level 61, c at next level, right associativity).

(** The text of a number: a safe integer prints in decimal. *)
Definition Number_toString (n : safe_integer) : string :=
  NilZero.string_of_int (Z.to_int (integer n)).

Fixpoint lookup (k : string) (fields : list (string * value)) : option value :=
  match fields with
  | [] => None
  | (k', x) :: rest => if String.eqb k' k then Some x else lookup k rest
  end.

(** [ToString], which can throw.  A plain object is converted through its
    [toString] method: the one of [Object.prototype] answers
    [[object Object]], but an own [toString] property, which in parsed JSON
    is never a function, hides it, and then neither it nor [valueOf]
    yields a primitive: a TypeError (V8 wording).  An array is joined with
    commas, [null] and [undefined] elements printing as nothing, and the
    first element that throws makes the whole conversion throw. *)
Fixpoint ToString (v : value) : completion string :=
  match v with
  | VUndefined => Normal "undefined"
  | VNull => Normal "null"
  | VBool true => Normal "true"
  | VBool false => Normal "false"
  | VNum n => Normal (Number_toString n)
  | VStr s => Normal s
  | VArr elems =>
      (fix join (l : list value) : completion string :=
         match l with
         | [] => Normal EmptyString
         | x :: rest =>
             sx <- match x with
                   | VUndefined | VNull => Normal EmptyString
                   | _ => ToString x
                   end ;;
             match rest with
             | [] => Normal sx
             | _ :: _ => srest <- join rest ;; Normal (sx ++ "," ++ srest)
             end
         end) elems
  | VObj fields =>
      match lookup "toString" fields with
      | Some _ => Throw "Cannot convert object to primitive value"
      | None => Normal "[object Object]"
      end
  end.

(** [new Error(x)]: the message of the error it builds, the empty string
    when [x] is [undefined] and [ToString x] otherwise; the construction
    itself throws when that conversion does. *)
Definition Error_message (x : value) : completion string :=
  match x with
  | VUndefined => Normal EmptyString
  | _ => ToString x
  end.

(** [throw new Error(x)]: the message of what ends up thrown, the new
    error or the TypeError of the conversion. *)
Definition thrown_message (x : value) : string :=
  match Error_message x with
  | inl message => message
  | inr message => message
  end.

(** Truthiness, as tested by [if (json['done'])]. *)
Definition truthy (v : value) : bool :=
  match v with
  | VUndefined | VNull => false
  | VBool b => b
  | VNum n => negb (integer n =? 0)%Z
  | VStr EmptyString => false
  | VStr (String _ _) => true
  | VArr _ | VObj _ => true
  end.

(** [v === 'literal']. *)
Definition strict_eq_string (v : value) (literal : string) : bool :=
  match v with
  | VStr s => String.eqb s literal
  | _ => false
  end.

(** [l[i]] on an array: [undefined] out of range. *)
Definition index (l : list value) (i : nat) : value := nth i l VUndefined.

(** [v[k]] for the property names this module reads (['path'], ['done'],
    ['error']): none of them is a property of an array or of a primitive
    wrapper, so only plain objects can answer; reading a property of
    [undefined] or [null] throws a TypeError (V8 wording). *)
Definition get (v : value) (k : string) : completion value :=
  match v with
  | VUndefined =>
      Throw ("Cannot read properties of undefined (reading '" ++ k ++ "')")
  | VNull =>
      Throw ("Cannot read properties of null (reading '" ++ k ++ "')")
  | VObj fields =>
      Normal (match lookup k fields with Some x => x | None => VUndefined end)
  | VBool _ | VNum _ | VStr _ | VArr _ => Normal VUndefined
  end.

(** The TypeError of [k in v] on a primitive whose text is [text]. *)
Definition in_TypeError {A : Type} (k text : string) : completion A :=
  Throw ("Cannot use 'in' operator to search for '" ++ k ++ "' in " ++ text).

(** [k in v] for the same property names: a TypeError on a primitive. *)
Definition has (k : string) (v : value) : completion bool :=
  match v with
  | VObj fields =>
      Normal (match lookup k fields with Some _ => true | None => false end)
  | VArr _ => Normal false
  | VUndefined => in_TypeError k "undefined"
  | VNull => in_TypeError k "null"
  | VBool b => in_TypeError k (if b then "true" else "false")
  | VNum n => in_TypeError k (Number_toString n)
  | VStr text => in_TypeError k text
  end.

(** [JSON.stringify], up to the concrete syntax: the result is the JSON
    document the text denotes.  Properties whose value is [undefined] are
    left out, [undefined] array elements become [null]. *)
Fixpoint JSON_stringify (v : value) : value :=
  match v with
  | VArr elems =>
      VArr (map (fun x => match x with
                          | VUndefined => VNull
                          | _ => JSON_stringify x
                          end) elems)
  | VObj fields =>
      VObj (flat_map (fun p : string * value => let (k, x) := p in
                               match x with
                               | VUndefined => []
                               | _ => [(k, JSON_stringify x)]
                               end) fields)
  | _ => v
  end.

(** ** URLSearchParams *)

Definition hex_digit (n : nat) : ascii :=
  ascii_of_nat (if Nat.ltb n 10 then 48 + n else 55 + n).

(** The application/x-www-form-urlencoded byte serializer. *)
Definition urlencode_byte (c : ascii) : string :=
  let n := nat_of_ascii c in
  if Nat.eqb n 32 then "+"
  else if (Nat.leb 48 n && Nat.leb n 57) || (Nat.leb 65 n && Nat.leb n 90)
          || (Nat.leb 97 n && Nat.leb n 122)
          || Nat.eqb n 42 || Nat.eqb n 45 || Nat.eqb n 46 || Nat.eqb n 95
  then String c EmptyString
  else String "%" (String (hex_digit (n / 16))
                     (String (hex_digit (n mod 16)) EmptyString)).

Fixpoint urlencode (s : string) : string :=
  match s with
  | EmptyString => EmptyString
  | String c rest => urlencode_byte c ++ urlencode rest
  end.

(** [new URLSearchParams(params).toString()]: [params] is [undefined]
    ([None]) or a record of string entries. *)
Fixpoint query_pairs (pairs : list (string * string)) : string :=
  match pairs with
  | [] => EmptyString
  | (k, x) :: rest =>
      let kv := urlencode k ++ "=" ++ urlencode x in
      match rest with
      | [] => kv
      | _ :: _ => kv ++ "&" ++ query_pairs rest
      end
  end.

Definition URLSearchParams_toString (params : option (list (string * string)))
  : string :=
  match params with
  | None => EmptyString
  | Some pairs => query_pairs pairs
  end.

(** ** Actions *)

(** The plain action objects; each constructor is named after the constant
    exported for its [type] and carries the other fields of the object. *)
Inductive action : Type :=
| FETCH_TASK
| FETCH_TASK_SUCCESS (task : value)
| FETCH_TASK_FAILURE (errorMsg : string)
| FETCH_STATS
| FETCH_STATS_SUCCESS (stats : value)
| FETCH_STATS_FAILURE (errorMsg : string)
| FETCH_ITEMS
| FETCH_ITEMS_SUCCESS (items : value)
| FETCH_ITEMS_FAILURE (errorMsg : string)
| RECORD_JUDGEMENT (itemId judgement : value)
| RECORD_JUDGEMENT_SUCCESS (itemId : value)
| RECORD_JUDGEMENT_FAILURE (itemId : value) (errorMsg : string)
| SHOW_NEXT_ITEM
| LABELLING_COMPLETE
| SET_BOUNDING_BOX_CLASS (boundingBoxClass : value)
| CHANGE_SEQUENCE_INPUT (sequenceInput : value)
| SUBMIT_DATA (data : value)
| SUBMIT_DATA_SUCCESS (response : value)
| SUBMIT_DATA_FAILURE (errorMsg : string)
| CHANGE_DEMO_SCORE_URL (url : value)
| CHANGE_DEMO_SCORE_URL_SEQUENCE (urlSequence : value)
| CHANGE_DEMO_SCORE_TEXT (text : value)
| RECORD_JUDGEMENTS (judgements : value)
| RECORD_JUDGEMENTS_SUCCESS (judgements : value)
| RECORD_JUDGEMENTS_FAILURE (judgements : value) (errorMsg : string)
| FETCH_BATCH_ITEMS
| FETCH_BATCH_ITEMS_SUCCESS (items : value)
| FETCH_BATCH_ITEMS_FAILURE (errorMsg : string)
| BATCH_LABELLING_COMPLETE
| SET_IS_BATCH_VIEW (isBatchView : bool).

(** The [type] field. *)
Definition type (a : action) : string :=
  match a with
  | FETCH_TASK => "TASK/FETCH"
  | FETCH_TASK_SUCCESS _ => "TASK/FETCH/SUCCESS"
  | FETCH_TASK_FAILURE _ => "TASK/FETCH/FAILURE"
  | FETCH_STATS => "STATS/FETCH"
  | FETCH_STATS_SUCCESS _ => "STATS/FETCH/SUCCESS"
  | FETCH_STATS_FAILURE _ => "STATS/FETCH/FAILURE"
  | FETCH_ITEMS => "ITEMS/FETCH"
  | FETCH_ITEMS_SUCCESS _ => "ITEMS/FETCH/SUCCESS"
  | FETCH_ITEMS_FAILURE _ => "ITEMS/FETCH/FAILURE"
  | RECORD_JUDGEMENT _ _ => "JUDGEMENT/RECORD"
  | RECORD_JUDGEMENT_SUCCESS _ => "JUDGEMENT/RECORD/SUCCESS"
  | RECORD_JUDGEMENT_FAILURE _ _ => "JUDGEMENT/RECORD/FAILURE"
  | SHOW_NEXT_ITEM => "SHOW_NEXT_ITEM"
  | LABELLING_COMPLETE => "LABELLING_COMPLETE"
  | SET_BOUNDING_BOX_CLASS _ => "SET_BOUNDING_BOX_CLASS"
  | CHANGE_SEQUENCE_INPUT _ => "CHANGE_SEQUENCE_INPUT"
  | SUBMIT_DATA _ => "DATA/SUBMIT"
  | SUBMIT_DATA_SUCCESS _ => "DATA/SUBMIT/SUCCESS"
  | SUBMIT_DATA_FAILURE _ => "DATA/SUBMIT/FAILURE"
  | CHANGE_DEMO_SCORE_URL _ => "CHANGE_DEMO_SCORE_URL"
  | CHANGE_DEMO_SCORE_URL_SEQUENCE _ => "CHANGE_DEMO_SCORE_URL_SEQUENCE"
  | CHANGE_DEMO_SCORE_TEXT _ => "CHANGE_DEMO_SCORE_TEXT"
  | RECORD_JUDGEMENTS _ => "JUDGEMENTS/RECORD"
  | RECORD_JUDGEMENTS_SUCCESS _ => "JUDGEMENTS/RECORD/SUCCESS"
  | RECORD_JUDGEMENTS_FAILURE _ _ => "JUDGEMENTS/RECORD/FAILURE"
  | FETCH_BATCH_ITEMS => "ITEMS/BATCH/FETCH"
  | FETCH_BATCH_ITEMS_SUCCESS _ => "ITEMS/BATCH/FETCH/SUCCESS"
  | FETCH_BATCH_ITEMS_FAILURE _ => "ITEMS/BATCH/FETCH/FAILURE"
  | BATCH_LABELLING_COMPLETE => "BATCH_LABELLING_COMPLETE"
  | SET_IS_BATCH_VIEW _ => "SET_IS_BATCH_VIEW"
  end.

(** The synchronous action creators. *)
Definition fetchTask : action := FETCH_TASK.
Definition fetchTaskSuccess (response : value) : action :=
  FETCH_TASK_SUCCESS response.
Definition fetchTaskFailure (error : string) : action :=
  FETCH_TASK_FAILURE error.
Definition fetchStats : action := FETCH_STATS.
Definition fetchStatsSuccess (response : value) : action :=
  FETCH_STATS_SUCCESS response.
Definition fetchStatsFailure (error : string) : action :=
  FETCH_STATS_FAILURE error.
Definition fetchItems : action := FETCH_ITEMS.
Definition fetchItemsSuccess (response : value) : action :=
  FETCH_ITEMS_SUCCESS response.
Definition fetchItemsFailure (error : string) : action :=
  FETCH_ITEMS_FAILURE error.
Definition recordJudgement (itemId judgement : value) : action :=
  RECORD_JUDGEMENT itemId judgement.
Definition recordJudgementSuccess (itemId : value) : action :=
  RECORD_JUDGEMENT_SUCCESS itemId.
Definition recordJudgementFailure (itemId : value) (error : string) : action :=
  RECORD_JUDGEMENT_FAILURE itemId error.
Definition showNextItem : action := SHOW_NEXT_ITEM.
Definition labellingComplete : action := LABELLING_COMPLETE.
Definition submitData (data : value) : action := SUBMIT_DATA data.
Definition submitDataSuccess (response : value) : action :=
  SUBMIT_DATA_SUCCESS response.
Definition submitDataFailure (error : string) : action :=
  SUBMIT_DATA_FAILURE error.
Definition recordJudgements (judgements : value) : action :=
  RECORD_JUDGEMENTS judgements.
Definition recordJudgementsSuccess (judgements : value) : action :=
  RECORD_JUDGEMENTS_SUCCESS judgements.
Definition recordJudgementsFailure (judgements : value) (error : string)
  : action :=
  RECORD_JUDGEMENTS_FAILURE judgements error.
Definition fetchBatchItems : action := FETCH_BATCH_ITEMS.
Definition fetchBatchItemsSuccess (response : value) : action :=
  FETCH_BATCH_ITEMS_SUCCESS response.
Definition fetchBatchItemsFailure (error : string) : action :=
  FETCH_BATCH_ITEMS_FAILURE error.
Definition batchLabellingComplete : action := BATCH_LABELLING_COMPLETE.
Definition setIsBatchView (isBatchView : bool) : action :=
  SET_IS_BATCH_VIEW isBatchView.

(** ** The store state read by the thunks and by the navigation bar *)

Module Judgements.
Record t : Type := { submitting : bool }.
End Judgements.

Module Items.
Record t : Type := { currentIndex : nat; items : list value }.
End Items.

Module Task.
Record t : Type :=
  { dataType : value; labelType : value; isBatchView : bool }.
End Task.

Module Demo.
Record t : Type := { urlSequence : value; text : value }.
End Demo.

Module State.
Record t : Type :=
  { judgements : Judgements.t;
    items : Items.t;
    task : Task.t;
    demo : Demo.t }.
End State.

(** ** Requests, responses and commands *)

Inductive http_method : Type := GET | POST.

Record request : Type :=
  { url : string;
    method : http_method;
    headers : list (string * string);
    body : option value }.

(** [fetch(url)] with no init object. *)
Definition fetch_get (u : string) : request :=
  {| url := u; method := GET; headers := []; body := None |}.

(** [fetch(url, { method: 'POST', headers: {'Content-Type':
    'application/json'}, body: JSON.stringify(payload) })]. *)
Definition fetch_post_json (u : string) (payload : value) : request :=
  {| url := u;
     method := POST;
     headers := [("Content-Type", "application/json")];
     body := Some (JSON_stringify payload) |}.

(** What the handlers read of a [Response]: [ok], [statusText] and the
    promise returned by [json()] (rejected when the body is not JSON). *)
Record response : Type :=
  { ok : bool; statusText : string; json : completion value }.

(** What one run of a thunk or of a promise handler does, in order.
    [Fetch r k] issues request [r]; [k] is the whole handler chain attached
    to the promise, applied to the way the request settles ([fetch] itself
    rejects on a network failure). *)
#[warnings="-register-all"]
Inductive cmd : Type :=
| Dispatch (a : action)
| ConsoleLog (line : string)
| Fetch (r : request) (k : completion response -> list cmd).

(** First handler shared by every call:
    [if (!response.ok) throw Error(response.statusText);
     return response.json()]. *)
Definition check_ok (r : response) : completion value :=
  if ok r then json r else Throw (statusText r).

(** [promise.catch(handler)] at the end of a chain whose last [then]
    callback either throws or runs commands. *)
Definition catch (p : completion (list cmd)) (handler : string -> list cmd)
  : list cmd :=
  match p with
  | inr commands => commands
  | inl message => handler message
  end.

(** ** The thunks of [actions/index.js] *)

(** A thunk that only takes [dispatch] is the list of its commands;
    dispatching it from another thunk or handler splices that list in. *)

Definition getNextBatch (params : option (list (string * string)))
  : list cmd :=
  [ Dispatch fetchItems;
    Fetch (fetch_get ("/batch?" ++ URLSearchParams_toString params))
      (fun settled =>
         catch (response <- settled ;;
                json <- check_ok response ;;
                Normal [Dispatch (fetchItemsSuccess json)])
           (fun message =>
              [Dispatch (fetchItemsFailure
                           ("Error fetching batch items: " ++ message))])) ].

Definition getStats : list cmd :=
  [ Dispatch fetchStats;
    Fetch (fetch_get "/history")
      (fun settled =>
         catch (response <- settled ;;
                json <- check_ok response ;;
                Normal [Dispatch (fetchStatsSuccess json)])
           (fun message =>
              [Dispatch (fetchStatsFailure
                           ("Error fetching stats: " ++ message))])) ].

Definition getTask : list cmd :=
  [ Dispatch fetchTask;
    Fetch (fetch_get "/task")
      (fun settled =>
         catch (response <- settled ;;
                json <- check_ok response ;;
                Normal [Dispatch (fetchTaskSuccess json)])
           (fun message =>
              [Dispatch (fetchTaskFailure
                           ("Error fetching stats: " ++ message))])) ].

(** [successCallback] is the command list the closure runs when called. *)
Definition submitJudgementToBackend (itemId judgement : value)
    (successCallback : list cmd) : list cmd :=
  [ Dispatch (recordJudgement itemId judgement);
    Fetch (fetch_post_json "/judgements"
             (VObj [("id", itemId); ("label", judgement)]))
      (fun settled =>
         catch (response <- settled ;;
                json <- check_ok response ;;
                has_error <- has "error" json ;;
                if has_error : bool then
                  error <- get json "error" ;;
                  message <- Error_message error ;;
                  Throw message
                else
                  Normal (Dispatch (recordJudgementSuccess itemId)
                            :: successCallback))
           (fun message =>
              [Dispatch (recordJudgementFailure itemId message)])) ].

(** A thunk that also takes [getState] is a function of the state it reads
    on entry; [Throw] is an exception escaping the thunk itself (the
    property read on a missing current item). *)
Definition submitJudgement (judgement : value) (state : State.t)
  : completion (list cmd) :=
  if Judgements.submitting (State.judgements state) then
    Normal [ConsoleLog "Double called submitJudgement."]
  else
    let currentIndex := Items.currentIndex (State.items state) in
    let items := Items.items (State.items state) in
    itemId <- get (index items currentIndex) "path" ;;
    Normal (submitJudgementToBackend itemId judgement
              ((if Nat.ltb (List.length items) (currentIndex + 4)
                then getNextBatch None
                else []) ++
               getStats ++
               [Dispatch showNextItem])%list).

Definition submitDataToScore (state : State.t) : list cmd :=
  let body :=
    if strict_eq_string (Task.dataType (State.task state)) "images" then
      VObj [("type", VStr "images");
            ("urls", VArr [Demo.urlSequence (State.demo state)])]
    else if strict_eq_string (Task.dataType (State.task state)) "text" then
      VObj [("type", VStr "text");
            ("texts", VArr [Demo.text (State.demo state)])]
    else VNull in
  [ Dispatch (submitData body);
    Fetch (fetch_post_json "/predict" body)
      (fun settled =>
         catch (response <- settled ;;
                json <- check_ok response ;;
                has_error <- has "error" json ;;
                if has_error : bool then
                  error <- get json "error" ;;
                  message <- Error_message error ;;
                  Throw message
                else
                  Normal [Dispatch (submitDataSuccess json)])
           (fun message => [Dispatch (submitDataFailure message)])) ].

Definition fetchNextBatchItemsBatch : list cmd :=
  [ Dispatch fetchBatchItems;
    Fetch (fetch_get "/batch_items_batch")
      (fun settled =>
         catch (response <- settled ;;
                json <- check_ok response ;;
                done <- get json "done" ;;
                if truthy done then
                  Normal [Dispatch batchLabellingComplete]
                else
                  Normal [Dispatch (fetchBatchItemsSuccess json)])
           (fun message =>
              [Dispatch (fetchBatchItemsFailure
                           ("Error fetching batch items: " ++ message))])) ].

Definition submitBatchJudgementsToBackend (judgements : value) : list cmd :=
  [ Dispatch (recordJudgements judgements);
    Fetch (fetch_post_json "/judgements/batch"
             (VObj [("labels", judgements)]))
      (fun settled =>
         catch (response <- settled ;;
                json <- check_ok response ;;
                has_error <- has "error" json ;;
                if has_error : bool then
                  error <- get json "error" ;;
                  message <- Error_message error ;;
                  Throw message
                else
                  Normal (Dispatch (recordJudgementsSuccess judgements)
                            :: fetchNextBatchItemsBatch ++ getStats)%list)
           (fun message =>
              [Dispatch (recordJudgementsFailure judgements message)])) ].

Definition submitBatchJudgements (judgements : value) (state : State.t)
  : list cmd :=
  if Judgements.submitting (State.judgements state) then
    [ConsoleLog "Double called submitJudgements."]
  else
    submitBatchJudgementsToBackend judgements.

(** ** The mode handlers of the navigation bar *)

Module NavigationBar.

Definition onClickSingle : list cmd := [Dispatch (setIsBatchView false)].


End NavigationBar.

(** ** Running commands against the store *)

(** The store, the requests in flight with their handlers, and what an
    observer has seen so far: requests sent, actions dispatched, console
    lines. *)
Record config : Type :=
  { store : State.t;
    pending : list (request * (completion response -> list cmd));
    sent : list request;
    dispatched : list action;
    console : list string }.

(** A store with nothing in flight and nothing observed yet. *)
Definition init (s : State.t) : config :=
  {| store := s; pending := []; sent := []; dispatched := []; console := [] |}.

Fixpoint remove_nth {A : Type} (i : nat) (l : list A) : list A :=
  match l, i with
  | [], _ => []
  | _ :: rest, O => rest
  | x :: rest, S i' => x :: remove_nth i' rest
  end.

Section Store.

(** The root reducer, which the sources do not contain. *)
Variable reducer : State.t -> action -> State.t.

Definition run1 (command : cmd) (c : config) : config :=
  match command with
  | Dispatch a =>
      {| store := reducer (store c) a;
         pending := pending c;
         sent := sent c;
         dispatched := (dispatched c ++ [a])%list;
         console := console c |}
  | ConsoleLog line =>
      {| store := store c;
         pending := pending c;
         sent := sent c;
         dispatched := dispatched c;
         console := (console c ++ [line])%list |}
  | Fetch r k =>
      {| store := store c;
         pending := (pending c ++ [(r, k)])%list;
         sent := (sent c ++ [r])%list;
         dispatched := dispatched c;
         console := console c |}
  end.

(** Commands run to completion, in order, without interruption. *)
Fixpoint exec (commands : list cmd) (c : config) : config :=
  match commands with
  | [] => c
  | command :: rest => exec rest (run1 command c)
  end.

(** [dispatch(thunk)] for the two thunks that call [getState]. *)
Definition dispatch_submitJudgement (judgement : value) (c : config)
  : completion config :=
  commands <- submitJudgement judgement (store c) ;;
  Normal (exec commands c).

Definition dispatch_submitBatchJudgements (judgements : value) (c : config)
  : config :=
  exec (submitBatchJudgements judgements (store c)) c.

(** The [i]-th request in flight settles as [settled]: its handler chain
    runs.  [None] when there is no such request. *)
Definition settle (i : nat) (settled : completion response) (c : config)
  : option config :=
  match nth_error (pending c) i with
  | None => None
  | Some (_, k) =>
      Some (exec (k settled)
              {| store := store c;
                 pending := remove_nth i (pending c);
                 sent := sent c;
                 dispatched := dispatched c;
                 console := console c |})
  end.

End Store.

(** Modelled from the spec: the reducer of the store is not in the sources.
    This one implements only the submission guard of the spec's store
    ("set true exactly when a submission pipeline begins and set false
    exactly when that pipeline's request settles") and leaves the rest of
    the state alone; it serves as a concrete reducer to run examples. *)
Definition guard_reducer (s : State.t) (a : action) : State.t :=
  let set (b : bool) :=
    {| State.judgements := {| Judgements.submitting := b |};
       State.items := State.items s;
       State.task := State.task s;
       State.demo := State.demo s |} in
  match a with
  | RECORD_JUDGEMENT _ _ | RECORD_JUDGEMENTS _ => set true
  | RECORD_JUDGEMENT_SUCCESS _ | RECORD_JUDGEMENT_FAILURE _ _
  | RECORD_JUDGEMENTS_SUCCESS _ | RECORD_JUDGEMENTS_FAILURE _ _ => set false
  | _ => s
  end.


(** ** Sample data *)

Definition item_with (field name : string) : value :=
  VObj [(field, VStr name)].

Definition sample_task : Task.t :=
  {| Task.dataType := VStr "images";
     Task.labelType := VStr "classification";
     Task.isBatchView := false |}.

Definition sample_state (submitting : bool) (currentIndex : nat)
    (items : list value) : State.t :=
  {| State.judgements := {| Judgements.submitting := submitting |};
     State.items := {| Items.currentIndex := currentIndex;
                       Items.items := items |};
     State.task := sample_task;
     State.demo := {| Demo.urlSequence := VStr EmptyString;
                      Demo.text := VStr EmptyString |} |}.

Definition ten_items : list value :=
  map (item_with "path")
    ["p0"; "p1"; "p2"; "p3"; "p4"; "p5"; "p6"; "p7"; "p8"; "p9"].

(** A 200 response whose body parses to [payload]. *)
Definition ok_response (payload : value) : response :=
  {| ok := true; statusText := "OK"; json := Normal payload |}.

(** A response with a non-success status; its body is never read. *)
Definition error_response (text : string) : response :=
  {| ok := false; statusText := text; json := Normal VNull |}.

(** ** Observations between two configurations *)

(** Nothing but the console differs: same store, same requests in flight,
    no request sent, no action dispatched. *)
Definition unchanged (c c' : config) : Prop :=
  store c' = store c
  /\ pending c' = pending c
  /\ sent c' = sent c
  /\ dispatched c' = dispatched c.

(** The requests sent and the actions dispatched between [c] and [c']. *)
Definition new_requests (c c' : config) : list request :=
  skipn (List.length (sent c)) (sent c').

Definition new_actions (c c' : config) : list action :=
  skipn (List.length (dispatched c)) (dispatched c').

(** What a command list sends and dispatches when it runs. *)
Fixpoint requests_of (commands : list cmd) : list request :=
  match commands with
  | [] => []
  | Fetch r _ :: rest => r :: requests_of rest
  | _ :: rest => requests_of rest
  end.

Fixpoint actions_of (commands : list cmd) : list action :=
  match commands with
  | [] => []
  | Dispatch a :: rest => a :: actions_of rest
  | _ :: rest => actions_of rest
  end.

(** The urls of the requests in flight. *)
Definition in_flight (c : config) : list string :=
  map (fun p => url (fst p)) (pending c).

(** Neither pipeline does anything but log when dispatched in [c]. *)
Definition both_dropped (reducer : State.t -> action -> State.t) (c : config)
  : Prop :=
  forall judgement judgements,
    (exists c', dispatch_submitJudgement reducer judgement c = Normal c'
                /\ unchanged c c')
    /\ unchanged c (dispatch_submitBatchJudgements reducer judgements c).

(** The two failure classes of a call: a non-success status (transport),
    and a success status whose JSON payload has an [error] field (domain).
    [failure settled message] relates the way a request settled to the
    message of the error the handler chain ends up with: the status text,
    or the message of what [throw new Error(json['error'])] throws. *)
Inductive failure : completion response -> string -> Prop :=
| transport_failure (text : string) (payload : completion value) :
    failure (Normal {| ok := false; statusText := text; json := payload |})
      text
| domain_failure (text : string) (fields : list (string * value))
    (error : value) :
    lookup "error" fields = Some error ->
    failure (Normal {| ok := true; statusText := text;
                       json := Normal (VObj fields) |})
      (thrown_message error).

(** ** The class buttons of the bounding box view *)

Definition setBoundingBoxClass (boundingBoxClass : value) : action :=
  SET_BOUNDING_BOX_CLASS boundingBoxClass.

(** [array.map((x, index) => f(x, index))], counting from [index]. *)
Fixpoint map_index {A B : Type} (f : A -> nat -> B) (index : nat) (l : list A)
  : list B :=
  match l with
  | [] => []
  | x :: rest => f x index :: map_index f (S index) rest
  end.

Module LabelBoundingBoxClassView.

Definition CLASSIFICATION_COLORS : list string :=
  [ "#2ecc71"; "#9b59b6"; "#f1c40f"; "#e74c3c"; "#16a085"; "#27ae60";
    "#2980b9"; "#8e44ad"; "#2c3e50"; "#f39c12"; "#d35400"; "#c0392b";
    "#1abc9c"; "#3498db"; "#34495e"; "#e67e22" ].

(** [mapDispatchToProps]. *)
Definition onSetBoundingBoxClass (boundingBoxClass : value) : list cmd :=
  [Dispatch (setBoundingBoxClass boundingBoxClass)].

(** One [h3] of the row: its background ([None] is [undefined]: the style
    then sets no colour), the class it shows and carries as
    [data-judgement], and its click handler. *)
Record button : Type :=
  { background : option string;
    judgement : value;
    onClick : list cmd }.

(** [render], on the array [this.props.task.classes]. *)
Definition render (classes : list value) : list button :=
  map_index
    (fun cls index =>
       {| background := nth_error CLASSIFICATION_COLORS index;
          judgement := cls;
          onClick := onSetBoundingBoxClass cls |})
    0 classes.

End LabelBoundingBoxClassView.

(** ** Command trees and runs *)

(** [always PA PR commands]: every action that [commands] can ever dispatch
    satisfies [PA] and every request it can ever send satisfies [PR],
    now or in a handler, however the requests settle. *)
Inductive always (PA : action -> Prop) (PR : request -> Prop)
  : list cmd -> Prop :=
| always_nil : always PA PR []
| always_dispatch (a : action) (rest : list cmd) :
    PA a -> always PA PR rest -> always PA PR (Dispatch a :: rest)
| always_log (line : string) (rest : list cmd) :
    always PA PR rest -> always PA PR (ConsoleLog line :: rest)
| always_fetch (r : request) (k : completion response -> list cmd)
    (rest : list cmd) :
    PR r ->
    (forall settled, always PA PR (k settled)) ->
    always PA PR rest ->
    always PA PR (Fetch r k :: rest).

(** The command lists the thunks of the module produce when dispatched. *)
Inductive entry : list cmd -> Prop :=
| entry_getNextBatch params : entry (getNextBatch params)
| entry_getStats : entry getStats
| entry_getTask : entry getTask
| entry_submitJudgement judgement state commands :
    submitJudgement judgement state = Normal commands -> entry commands
| entry_submitDataToScore state : entry (submitDataToScore state)
| entry_submitBatchJudgements judgements state :
    entry (submitBatchJudgements judgements state)
| entry_submitBatchJudgementsToBackend judgements :
    entry (submitBatchJudgementsToBackend judgements)
| entry_fetchNextBatchItemsBatch : entry fetchNextBatchItemsBatch.

(** The shapes of request the module sends: a bare GET of one of four
    routes, or a JSON POST with a body to one of three. *)
Definition well_formed (r : request) : Prop :=
  (method r = GET /\ headers r = [] /\ body r = None
   /\ (url r = "/task" \/ url r = "/history" \/ url r = "/batch_items_batch"
       \/ exists query, url r = "/batch?" ++ query))
  \/ (method r = POST
      /\ headers r = [("Content-Type", "application/json")]
      /\ body r <> None
      /\ (url r = "/judgements" \/ url r = "/judgements/batch"
          \/ url r = "/predict")).

(** The actions a view dispatches directly; no thunk creates them. *)
Definition view_action (a : action) : bool :=
  match a with
  | LABELLING_COMPLETE | SET_BOUNDING_BOX_CLASS _ | CHANGE_SEQUENCE_INPUT _
  | CHANGE_DEMO_SCORE_URL _ | CHANGE_DEMO_SCORE_URL_SEQUENCE _
  | CHANGE_DEMO_SCORE_TEXT _ | SET_IS_BATCH_VIEW _ => true
  | _ => false
  end.

(** The four actions that report a settled submission. *)
Definition settles_submission (a : action) : bool :=
  match a with
  | RECORD_JUDGEMENT_SUCCESS _ | RECORD_JUDGEMENT_FAILURE _ _
  | RECORD_JUDGEMENTS_SUCCESS _ | RECORD_JUDGEMENTS_FAILURE _ _ => true
  | _ => false
  end.

(** A request of one of the two submission pipelines. *)
Definition is_submission (r : request) : bool :=
  String.eqb (url r) "/judgements" || String.eqb (url r) "/judgements/batch".

Definition submissions_in_flight (c : config) : nat :=
  List.length (filter (fun p => is_submission (fst p)) (pending c)).

(** One step of a session in which submissions go through the two guarded
    pipelines: [submitJudgement], [submitBatchJudgements], one of the
    fetching thunks or a plain action is dispatched, or a request in
    flight settles in some way.  As in the sources, the two
    [...ToBackend] thunks are entered through the pipelines only, and the
    four actions that report a settled submission are dispatched by their
    handlers only. *)
Inductive step (reducer : State.t -> action -> State.t)
  : config -> config -> Prop :=
| step_submitJudgement judgement c c' :
    dispatch_submitJudgement reducer judgement c = Normal c' ->
    step reducer c c'
| step_submitBatchJudgements judgements c :
    step reducer c (dispatch_submitBatchJudgements reducer judgements c)
| step_getTask c : step reducer c (exec reducer getTask c)
| step_getStats c : step reducer c (exec reducer getStats c)
| step_getNextBatch params c :
    step reducer c (exec reducer (getNextBatch params) c)
| step_fetchNextBatchItemsBatch c :
    step reducer c (exec reducer fetchNextBatchItemsBatch c)
| step_submitDataToScore c :
    step reducer c (exec reducer (submitDataToScore (store c)) c)
| step_plain a c :
    settles_submission a = false ->
    step reducer c (exec reducer [Dispatch a] c)
| step_settle i settled c c' :
    settle reducer i settled c = Some c' ->
    step reducer c c'.

(** The configurations a session can reach from a store with nothing in
    flight. *)
Inductive reachable (reducer : State.t -> action -> State.t) (s : State.t)
  : config -> Prop :=
| reachable_init : reachable reducer s (init s)
| reachable_step c c' :
    reachable reducer s c -> step reducer c c' -> reachable reducer s c'.

(** Two more ways for a call to fail: [fetch] rejects (the network is
    down), or the body of a successful response is not JSON and [json()]
    rejects. *)
Inductive unreadable : completion response -> string -> Prop :=
| fetch_rejected (message : string) : unreadable (Throw message) message
| body_not_json (text message : string) :
    unreadable (Normal {| ok := true; statusText := text;
                          json := Throw message |})
      message.

(** JSON payloads that are not objects: on these [in] throws. *)
Definition primitive (v : value) : Prop :=
  match v with
  | VObj _ | VArr _ => False
  | _ => True
  end.
(** Commands that stay clear of the submission pipelines: they never
    report a settled submission and never send a submission request. *)
Definition calm : list cmd -> Prop :=
  always (fun a => settles_submission a = false)
    (fun r => is_submission r = false).

(** The handler of a submission request: one action first, calm commands
    after it. *)
Definition closing (commands : list cmd) : Prop :=
  exists a rest, commands = Dispatch a :: rest /\ calm rest.

Definition handler_ok (p : request * (completion response -> list cmd))
  : Prop :=
  if is_submission (fst p)
  then forall settled, closing (snd p settled)
  else forall settled, calm (snd p settled).

(** What a session keeps true: the handlers in flight are the expected
    ones, at most one of them belongs to a submission, and the flag is up
    while it is there. *)
Definition session_invariant (c : config) : Prop :=
  Forall handler_ok (pending c)
  /\ submissions_in_flight c <= 1
  /\ (submissions_in_flight c = 1 ->
      Judgements.submitting (State.judgements (store c)) = true).
(** Two actions built by the same action creator, whatever they carry. *)
Definition same_kind (a b : action) : Prop :=
  match a, b with
  | FETCH_TASK, FETCH_TASK
  | FETCH_TASK_SUCCESS _, FETCH_TASK_SUCCESS _
  | FETCH_TASK_FAILURE _, FETCH_TASK_FAILURE _
  | FETCH_STATS, FETCH_STATS
  | FETCH_STATS_SUCCESS _, FETCH_STATS_SUCCESS _
  | FETCH_STATS_FAILURE _, FETCH_STATS_FAILURE _
  | FETCH_ITEMS, FETCH_ITEMS
  | FETCH_ITEMS_SUCCESS _, FETCH_ITEMS_SUCCESS _
  | FETCH_ITEMS_FAILURE _, FETCH_ITEMS_FAILURE _
  | RECORD_JUDGEMENT _ _, RECORD_JUDGEMENT _ _
  | RECORD_JUDGEMENT_SUCCESS _, RECORD_JUDGEMENT_SUCCESS _
  | RECORD_JUDGEMENT_FAILURE _ _, RECORD_JUDGEMENT_FAILURE _ _
  | SHOW_NEXT_ITEM, SHOW_NEXT_ITEM
  | LABELLING_COMPLETE, LABELLING_COMPLETE
  | SET_BOUNDING_BOX_CLASS _, SET_BOUNDING_BOX_CLASS _
  | CHANGE_SEQUENCE_INPUT _, CHANGE_SEQUENCE_INPUT _
  | SUBMIT_DATA _, SUBMIT_DATA _
  | SUBMIT_DATA_SUCCESS _, SUBMIT_DATA_SUCCESS _
  | SUBMIT_DATA_FAILURE _, SUBMIT_DATA_FAILURE _
  | CHANGE_DEMO_SCORE_URL _, CHANGE_DEMO_SCORE_URL _
  | CHANGE_DEMO_SCORE_URL_SEQUENCE _, CHANGE_DEMO_SCORE_URL_SEQUENCE _
  | CHANGE_DEMO_SCORE_TEXT _, CHANGE_DEMO_SCORE_TEXT _
  | RECORD_JUDGEMENTS _, RECORD_JUDGEMENTS _
  | RECORD_JUDGEMENTS_SUCCESS _, RECORD_JUDGEMENTS_SUCCESS _
  | RECORD_JUDGEMENTS_FAILURE _ _, RECORD_JUDGEMENTS_FAILURE _ _
  | FETCH_BATCH_ITEMS, FETCH_BATCH_ITEMS
  | FETCH_BATCH_ITEMS_SUCCESS _, FETCH_BATCH_ITEMS_SUCCESS _
  | FETCH_BATCH_ITEMS_FAILURE _, FETCH_BATCH_ITEMS_FAILURE _
  | BATCH_LABELLING_COMPLETE, BATCH_LABELLING_COMPLETE
  | SET_IS_BATCH_VIEW _, SET_IS_BATCH_VIEW _ => True
  | _, _ => False
  end.

(** * Properties *)

(** ** Bookkeeping lemmas *)

Lemma nth_error_snoc {A : Type} (l : list A) (x : A) :
  nth_error (l ++ [x]) (List.length l) = Some x.
Proof.
  induction l as [|y l IH]; simpl; [reflexivity | exact IH].
Qed.

Lemma remove_nth_snoc {A : Type} (l : list A) (x : A) :
  remove_nth (List.length l) (l ++ [x]) = l.
Proof.
  induction l as [|y l IH]; simpl; [reflexivity | now rewrite IH].
Qed.

Lemma skipn_length_app {A : Type} (l l' : list A) :
  skipn (List.length l) (l ++ l') = l'.
Proof.
  induction l as [|y l IH]; simpl; [reflexivity | exact IH].
Qed.

(** A request issued last settles from the last slot. *)
Lemma settle_snoc reducer settled s p r k se d co :
  settle reducer (List.length p) settled
    {| store := s; pending := p ++ [(r, k)]; sent := se;
       dispatched := d; console := co |}
  = Some (exec reducer (k settled)
            {| store := s; pending := p; sent := se;
               dispatched := d; console := co |}).
Proof.
  unfold settle; simpl.
  now rewrite nth_error_snoc, remove_nth_snoc.
Qed.

Lemma sent_exec reducer commands : forall c,
  sent (exec reducer commands c) = (sent c ++ requests_of commands)%list.
Proof.
  induction commands as [|command rest IH]; intros c; simpl.
  - now rewrite app_nil_r.
  - rewrite IH. destruct command; simpl; try reflexivity.
    now rewrite <- app_assoc.
Qed.

Lemma dispatched_exec reducer commands : forall c,
  dispatched (exec reducer commands c)
  = (dispatched c ++ actions_of commands)%list.
Proof.
  induction commands as [|command rest IH]; intros c; simpl.
  - now rewrite app_nil_r.
  - rewrite IH. destruct command; simpl; try reflexivity.
    now rewrite <- app_assoc.
Qed.

Lemma requests_of_app a b :
  requests_of (a ++ b) = (requests_of a ++ requests_of b)%list.
Proof.
  induction a as [|command a IH]; simpl; [reflexivity|].
  destruct command; simpl; now rewrite IH.
Qed.

Lemma actions_of_app a b :
  actions_of (a ++ b) = (actions_of a ++ actions_of b)%list.
Proof.
  induction a as [|command a IH]; simpl; [reflexivity|].
  destruct command; simpl; now rewrite IH.
Qed.

Lemma strict_eq_string_true v literal :
  strict_eq_string v literal = true <-> v = VStr literal.
Proof.
  destruct v; simpl; try (split; [discriminate | intros H; discriminate H]).
  rewrite String.eqb_eq. split; [now intros -> | now intros [= ->]].
Qed.

(** Entering the single-item pipeline with the guard down and a current
    item, up to the point where the POST is in flight. *)
Ltac enter_single Hsub Hitem :=
  unfold dispatch_submitJudgement, submitJudgement;
  rewrite Hsub; cbv zeta; rewrite Hitem;
  cbn [bind Normal];
  unfold submitJudgementToBackend;
  cbn [exec run1 store pending sent dispatched console].

(** Reading off what was sent and dispatched since an earlier
    configuration. *)
Ltac observe :=
  unfold new_requests, new_actions;
  rewrite ?sent_exec, ?dispatched_exec;
  cbn [store pending sent dispatched console];
  rewrite ?skipn_length_app;
  rewrite <- ?app_assoc, ?skipn_length_app.

Lemma catch_thrown (error : value) (handler : string -> list cmd) :
  catch (message <- Error_message error ;; Throw message) handler
  = handler (thrown_message error).
Proof.
  unfold thrown_message. destruct (Error_message error); reflexivity.
Qed.

(** An object with an own [toString] cannot be converted: what is thrown
    is the TypeError, not an error saying [[object Object]]. *)
Example thrown_message_own_toString :
  thrown_message (VObj [("toString", VStr "x")])
  = "Cannot convert object to primitive value"
  /\ thrown_message (VObj [("code", VStr "x")]) = "[object Object]"
  /\ thrown_message (VArr [VStr "a"; VNull; VObj [("toString", VNull)]])
     = "Cannot convert object to primitive value".
Proof. repeat split. Qed.

Lemma has_error_field fields error :
  lookup "error" fields = Some error ->
  has "error" (VObj fields) = Normal true
  /\ get (VObj fields) "error" = Normal error.
Proof.
  intros H. unfold has, get. now rewrite H.
Qed.

(** ** C1: the submitting guard *)

(** C1. In a state where [submitting] is true, dispatching [submitJudgement]
    or [submitBatchJudgements] sends no request and dispatches no action:
    the store is left as it was (only the console gets a line), whatever the
    reducer. *)
Theorem submitting_guard_drops_submission :
  forall (reducer : State.t -> action -> State.t)
         (judgement judgements : value) (c : config),
    Judgements.submitting (State.judgements (store c)) = true ->
    (exists c', dispatch_submitJudgement reducer judgement c = Normal c'
                /\ unchanged c c'
                /\ new_requests c c' = [] /\ new_actions c c' = [])
    /\ (let c' := dispatch_submitBatchJudgements reducer judgements c in
        unchanged c c' /\ new_requests c c' = [] /\ new_actions c c' = []).
Proof.
  intros reducer judgement judgements c Hsub.
  unfold dispatch_submitJudgement, dispatch_submitBatchJudgements,
    submitJudgement, submitBatchJudgements.
  rewrite Hsub. simpl.
  assert (Hskip : forall (A : Type) (l : list A), skipn (List.length l) l = [])
    by (intros A l; apply skipn_all).
  split.
  - eexists. split; [reflexivity|].
    split; [repeat split|].
    unfold new_requests, new_actions; simpl. now rewrite !Hskip.
  - split; [repeat split|].
    unfold new_requests, new_actions; simpl. now rewrite !Hskip.
Qed.

Lemma submitting_guard_drops_submission_witness :
  let c := init (sample_state true 0 [item_with "path" "a"]) in
  (exists c', dispatch_submitJudgement guard_reducer (VStr "cat") c = Normal c'
              /\ unchanged c c'
              /\ new_requests c c' = [] /\ new_actions c c' = [])
  /\ (let c' := dispatch_submitBatchJudgements guard_reducer (VArr []) c in
      unchanged c c' /\ new_requests c c' = [] /\ new_actions c c' = []).
Proof.
  apply (submitting_guard_drops_submission guard_reducer (VStr "cat") (VArr [])
           (init (sample_state true 0 [item_with "path" "a"]))).
  reflexivity.
Defined.

(** ** C2: the read-ahead trigger *)

(** C2 (as amended). After a successful single-item submission the next
    item page is fetched exactly when [currentIndex + 4 > items.length],
    with the index and the items read when the submission was dispatched. *)
Theorem read_ahead_trigger :
  forall (reducer : State.t -> action -> State.t) (judgement : value)
         (c : config) (itemId : value) (text : string) (payload : value),
    let currentIndex := Items.currentIndex (State.items (store c)) in
    let items := Items.items (State.items (store c)) in
    Judgements.submitting (State.judgements (store c)) = false ->
    get (index items currentIndex) "path" = Normal itemId ->
    has "error" payload = Normal false ->
    exists c1 c2,
      dispatch_submitJudgement reducer judgement c = Normal c1
      /\ settle reducer (List.length (pending c))
           (Normal {| ok := true; statusText := text; json := Normal payload |})
           c1 = Some c2
      /\ (In (fetch_get "/batch?") (new_requests c1 c2)
          <-> List.length items < currentIndex + 4).
Proof.
  intros reducer judgement c itemId text payload currentIndex items
    Hsub Hitem Herr.
  subst currentIndex items.
  enter_single Hsub Hitem.
  eexists. eexists. split; [reflexivity|].
  rewrite settle_snoc.
  cbn [catch bind Normal check_ok ok json]. rewrite Herr.
  cbn [bind Normal catch].
  split; [reflexivity|].
  observe.
  cbn [requests_of]. rewrite requests_of_app.
  destruct (Nat.ltb_spec (List.length (Items.items (State.items (store c))))
              (Items.currentIndex (State.items (store c)) + 4)) as [Hlt|Hge].
  - unfold getNextBatch, getStats; simpl.
    split; [intros _; exact Hlt | intros _; left; reflexivity].
  - unfold getStats; simpl.
    split; [intros [H|[]]; discriminate H | lia].
Qed.

Lemma read_ahead_trigger_witness :
  let c := init (sample_state false 7 ten_items) in
  exists c1 c2,
    dispatch_submitJudgement guard_reducer (VStr "cat") c = Normal c1
    /\ settle guard_reducer 0 (Normal (ok_response (VObj []))) c1 = Some c2
    /\ (In (fetch_get "/batch?") (new_requests c1 c2) <-> 10 < 7 + 4).
Proof.
  apply (read_ahead_trigger guard_reducer (VStr "cat")
           (init (sample_state false 7 ten_items)) (VStr "p7") "OK" (VObj []));
    reflexivity.
Defined.

(** C2, the claim as stated, at its own example: ten items, cursor at 6, so
    that [6 + 4 >= 10]; the submission succeeds and only the statistics are
    fetched afterwards. *)
Lemma read_ahead_not_triggered_at_6_of_10 :
  let c := init (sample_state false 6 ten_items) in
  exists c1 c2,
    dispatch_submitJudgement guard_reducer (VStr "cat") c = Normal c1
    /\ settle guard_reducer 0 (Normal (ok_response (VObj []))) c1 = Some c2
    /\ List.length (Items.items (State.items (store c))) = 10
    /\ Items.currentIndex (State.items (store c)) = 6
    /\ 10 <= 6 + 4
    /\ new_requests c1 c2 = [fetch_get "/history"]
    /\ ~ In (fetch_get "/batch?") (new_requests c1 c2).
Proof.
  cbv zeta. eexists. eexists.
  split; [reflexivity|]. split; [reflexivity|].
  repeat (split; [first [reflexivity | lia]|]).
  intros [H|[]]. discriminate H.
Qed.

(** ** C3: the body of the single submission *)

(** C3 (as amended). With the guard down and an object at [currentIndex],
    the one request sent is a JSON POST to [/judgements] of the object
    [{id, label}] in which [id] is the item's [path] field and [label] the
    judgement; for a string path and a string label the body is exactly
    [{id: path, label: label}]. *)
Theorem single_submission_request :
  forall (reducer : State.t -> action -> State.t) (judgement : value)
         (c : config) (fields : list (string * value)) (path : value),
    Judgements.submitting (State.judgements (store c)) = false ->
    index (Items.items (State.items (store c)))
      (Items.currentIndex (State.items (store c))) = VObj fields ->
    lookup "path" fields = Some path ->
    exists c1,
      dispatch_submitJudgement reducer judgement c = Normal c1
      /\ new_requests c c1
         = [fetch_post_json "/judgements"
              (VObj [("id", path); ("label", judgement)])]
      /\ forall p l, path = VStr p -> judgement = VStr l ->
           new_requests c c1
           = [{| url := "/judgements";
                 method := POST;
                 headers := [("Content-Type", "application/json")];
                 body := Some (VObj [("id", VStr p); ("label", VStr l)]) |}].
Proof.
  intros reducer judgement c fields path Hsub Hitem Hpath.
  assert (Hget : get (index (Items.items (State.items (store c)))
                        (Items.currentIndex (State.items (store c)))) "path"
                 = Normal path).
  { rewrite Hitem. unfold get. now rewrite Hpath. }
  enter_single Hsub Hget.
  eexists. split; [reflexivity|].
  observe. split; [reflexivity|].
  intros p l -> ->. reflexivity.
Qed.

Lemma single_submission_request_witness :
  let c := init (sample_state false 0 [item_with "path" "a"]) in
  exists c1,
    dispatch_submitJudgement guard_reducer (VStr "cat") c = Normal c1
    /\ new_requests c c1
       = [fetch_post_json "/judgements"
            (VObj [("id", VStr "a"); ("label", VStr "cat")])]
    /\ forall p l, VStr "a" = VStr p -> VStr "cat" = VStr l ->
         new_requests c c1
         = [{| url := "/judgements";
               method := POST;
               headers := [("Content-Type", "application/json")];
               body := Some (VObj [("id", VStr p); ("label", VStr l)]) |}].
Proof.
  apply (single_submission_request guard_reducer (VStr "cat")
           (init (sample_state false 0 [item_with "path" "a"]))
           [("path", VStr "a")] (VStr "a")); reflexivity.
Defined.

(** C3, the claim as stated, at its own example: items [[{id:'a'}]] and
    label ['cat'].  The item has no [path], so [itemId] is [undefined] and
    the body that goes out is [{label:'cat'}]. *)
Lemma single_submission_body_lacks_id :
  let c := init (sample_state false 0 [item_with "id" "a"]) in
  exists c1,
    dispatch_submitJudgement guard_reducer (VStr "cat") c = Normal c1
    /\ map body (new_requests c c1) = [Some (VObj [("label", VStr "cat")])]
    /\ map body (new_requests c c1)
       <> [Some (VObj [("id", VStr "a"); ("label", VStr "cat")])].
Proof.
  cbv zeta. eexists. split; [reflexivity|].
  split; [reflexivity|]. discriminate.
Qed.

(** ** C4: an [error] field in a successful response *)

(** C4 (as amended). When a call gets a success status and a JSON object
    with an [error] field, the three POST calls (single submission, batch
    submission, predict) dispatch their failure action with the message of
    that field (the field itself when it is a string; in general the
    message of what [throw new Error(json['error'])] throws, which is the
    TypeError of the conversion when the field cannot be converted to a
    string) and no success action; the four GET calls do not look at the
    field: task, stats and
    item page hand the payload to their success action, and the batch item
    page does so unless [done] is set. *)
Theorem error_field_fails_the_post_calls :
  forall (reducer : State.t -> action -> State.t) (c : config)
         (text : string) (fields : list (string * value)) (error : value),
    lookup "error" fields = Some error ->
    let settled :=
      Normal {| ok := true; statusText := text;
                json := Normal (VObj fields) |} in
    let after (commands : list cmd) (actions : list action) :=
      exists c2,
        settle reducer (List.length (pending c)) settled
          (exec reducer commands c) = Some c2
        /\ new_actions c c2 = actions in
    (forall itemId judgement successCallback,
        after (submitJudgementToBackend itemId judgement successCallback)
          [recordJudgement itemId judgement;
           recordJudgementFailure itemId (thrown_message error)])
    /\ (forall judgements,
        after (submitBatchJudgementsToBackend judgements)
          [recordJudgements judgements;
           recordJudgementsFailure judgements (thrown_message error)])
    /\ (forall state, exists data,
        after (submitDataToScore state)
          [submitData data; submitDataFailure (thrown_message error)])
    /\ (forall message, error = VStr message -> thrown_message error = message)
    /\ after getTask [fetchTask; fetchTaskSuccess (VObj fields)]
    /\ after getStats [fetchStats; fetchStatsSuccess (VObj fields)]
    /\ (forall params,
        after (getNextBatch params)
          [fetchItems; fetchItemsSuccess (VObj fields)])
    /\ (exists done,
        get (VObj fields) "done" = Normal done
        /\ after fetchNextBatchItemsBatch
             [fetchBatchItems;
              if truthy done then batchLabellingComplete
              else fetchBatchItemsSuccess (VObj fields)]).
Proof.
  intros reducer c text fields error Herror settled after.
  destruct (has_error_field fields error Herror) as [Hhas Hget].
  subst after settled.
  repeat match goal with |- _ /\ _ => split end.
  - intros itemId judgement successCallback.
    unfold submitJudgementToBackend.
    cbn [exec run1 store pending sent dispatched console].
    rewrite settle_snoc. eexists. split; [reflexivity|].
    cbn [catch bind Normal check_ok ok json]. rewrite Hhas.
    cbn [bind Normal]. rewrite Hget. cbn [bind Normal]. rewrite catch_thrown.
    observe. reflexivity.
  - intros judgements.
    unfold submitBatchJudgementsToBackend.
    cbn [exec run1 store pending sent dispatched console].
    rewrite settle_snoc. eexists. split; [reflexivity|].
    cbn [catch bind Normal check_ok ok json]. rewrite Hhas.
    cbn [bind Normal]. rewrite Hget. cbn [bind Normal]. rewrite catch_thrown.
    observe. reflexivity.
  - intros state. eexists.
    unfold submitDataToScore.
    cbn [exec run1 store pending sent dispatched console].
    rewrite settle_snoc. eexists. split; [reflexivity|].
    cbn [catch bind Normal check_ok ok json]. rewrite Hhas.
    cbn [bind Normal]. rewrite Hget. cbn [bind Normal]. rewrite catch_thrown.
    observe. reflexivity.
  - intros message ->. reflexivity.
  - unfold getTask.
    cbn [exec run1 store pending sent dispatched console].
    rewrite settle_snoc. eexists. split; [reflexivity|].
    cbn [catch bind Normal check_ok ok json].
    observe. reflexivity.
  - unfold getStats.
    cbn [exec run1 store pending sent dispatched console].
    rewrite settle_snoc. eexists. split; [reflexivity|].
    cbn [catch bind Normal check_ok ok json].
    observe. reflexivity.
  - intros params. unfold getNextBatch.
    cbn [exec run1 store pending sent dispatched console].
    rewrite settle_snoc. eexists. split; [reflexivity|].
    cbn [catch bind Normal check_ok ok json].
    observe. reflexivity.
  - eexists. split; [reflexivity|].
    unfold fetchNextBatchItemsBatch.
    cbn [exec run1 store pending sent dispatched console].
    rewrite settle_snoc. eexists. split; [reflexivity|].
    cbn [catch bind Normal check_ok ok json get].
    destruct (truthy _); observe; reflexivity.
Qed.

Lemma error_field_fails_the_post_calls_witness :
  exists c2,
    settle guard_reducer 0
      (Normal (ok_response (VObj [("error", VStr "unknown label")])))
      (exec guard_reducer
         (submitBatchJudgementsToBackend (VArr [])) (init (sample_state false 0 [])))
    = Some c2
    /\ new_actions (init (sample_state false 0 [])) c2
       = [recordJudgements (VArr []);
          recordJudgementsFailure (VArr []) "unknown label"].
Proof.
  exact (proj1 (proj2
           (error_field_fails_the_post_calls guard_reducer
              (init (sample_state false 0 [])) "OK"
              [("error", VStr "unknown label")] (VStr "unknown label")
              eq_refl))
           (VArr [])).
Defined.

(** C4, the claim as stated, at the task fetch: a 200 response
    [{error: 'no task configured'}] ends in the success action carrying
    that object, and no failure action is dispatched. *)
Lemma error_field_passes_the_task_fetch :
  let c := init (sample_state false 0 []) in
  let payload := VObj [("error", VStr "no task configured")] in
  exists c2,
    settle guard_reducer 0 (Normal (ok_response payload))
      (exec guard_reducer getTask c) = Some c2
    /\ dispatched c2 = [fetchTask; fetchTaskSuccess payload]
    /\ forall message, ~ In (fetchTaskFailure message) (dispatched c2).
Proof.
  cbv zeta. eexists. split; [reflexivity|]. split; [reflexivity|].
  intros message [H|[H|[]]]; discriminate H.
Qed.

(** ** C5: the batch item page *)

(** C5. When the GET of [/batch_items_batch] answers [{done: true}], the
    only action that follows [fetchBatchItems] is
    [batchLabellingComplete]: no success action replaces the batch items.
    When it answers a list, the only action that follows is
    [fetchBatchItemsSuccess] with that list, and no completion. *)
Theorem batch_page_done_or_replaced :
  forall (reducer : State.t -> action -> State.t) (c : config)
         (text : string),
    (exists c2,
        settle reducer (List.length (pending c))
          (Normal {| ok := true; statusText := text;
                     json := Normal (VObj [("done", VBool true)]) |})
          (exec reducer fetchNextBatchItemsBatch c) = Some c2
        /\ new_actions c c2 = [fetchBatchItems; batchLabellingComplete]
        /\ store c2
           = reducer (reducer (store c) fetchBatchItems)
               batchLabellingComplete)
    /\ (forall elems : list value,
        exists c2,
          settle reducer (List.length (pending c))
            (Normal {| ok := true; statusText := text;
                       json := Normal (VArr elems) |})
            (exec reducer fetchNextBatchItemsBatch c) = Some c2
          /\ new_actions c c2
             = [fetchBatchItems; fetchBatchItemsSuccess (VArr elems)]
          /\ store c2
             = reducer (reducer (store c) fetchBatchItems)
                 (fetchBatchItemsSuccess (VArr elems))).
Proof.
  intros reducer c text. split; [|intros elems];
    unfold fetchNextBatchItemsBatch;
    cbn [exec run1 store pending sent dispatched console];
    rewrite settle_snoc; eexists; (split; [reflexivity|]);
    cbn; observe; split; reflexivity.
Qed.

(** ** C6: a failed single submission *)

(** C6. When the POST of a single submission fails, by a non-success status
    or by an [error] field, its settlement dispatches exactly one action,
    [recordJudgementFailure] with the item id and the error message, and
    sends nothing: no item page fetch, no statistics fetch, no
    [showNextItem]; no request is left in flight by it. *)
Theorem failed_single_submission :
  forall (reducer : State.t -> action -> State.t) (judgement : value)
         (c : config) (itemId : value)
         (settled : completion response) (message : string),
    Judgements.submitting (State.judgements (store c)) = false ->
    get (index (Items.items (State.items (store c)))
           (Items.currentIndex (State.items (store c)))) "path"
    = Normal itemId ->
    failure settled message ->
    exists c1 c2,
      dispatch_submitJudgement reducer judgement c = Normal c1
      /\ settle reducer (List.length (pending c)) settled c1 = Some c2
      /\ new_actions c1 c2 = [recordJudgementFailure itemId message]
      /\ new_requests c1 c2 = []
      /\ pending c2 = pending c
      /\ store c2 = reducer (store c1) (recordJudgementFailure itemId message).
Proof.
  intros reducer judgement c itemId settled message Hsub Hitem Hfail.
  enter_single Hsub Hitem.
  destruct Hfail as [text payload | text fields error Herror];
    eexists; eexists; (split; [reflexivity|]);
    rewrite settle_snoc; (split; [reflexivity|]).
  - cbn [catch bind Normal Throw check_ok ok json statusText].
    observe. repeat split.
  - destruct (has_error_field fields error Herror) as [Hhas Hget].
    cbn [catch bind Normal check_ok ok json]. rewrite Hhas.
    cbn [bind Normal]. rewrite Hget. cbn [bind Normal]. rewrite catch_thrown.
    observe. repeat split.
Qed.

Lemma failed_single_submission_witness :
  let c := init (sample_state false 0 [item_with "path" "a"]) in
  exists c1 c2,
    dispatch_submitJudgement guard_reducer (VStr "cat") c = Normal c1
    /\ settle guard_reducer 0
         (Normal (error_response "Service Unavailable")) c1 = Some c2
    /\ new_actions c1 c2
       = [recordJudgementFailure (VStr "a") "Service Unavailable"]
    /\ new_requests c1 c2 = []
    /\ pending c2 = pending c
    /\ store c2
       = guard_reducer (store c1)
           (recordJudgementFailure (VStr "a") "Service Unavailable").
Proof.
  apply (failed_single_submission guard_reducer (VStr "cat")
           (init (sample_state false 0 [item_with "path" "a"])) (VStr "a")
           (Normal (error_response "Service Unavailable"))
           "Service Unavailable").
  - reflexivity.
  - reflexivity.
  - apply transport_failure.
Defined.

(** ** C7: a non-success status *)

(** C7 (as amended). When a call gets a non-success status, its failure
    action carries the status text: as it is for the three POST calls
    (single submission, batch submission, predict), and after a fixed
    prefix naming the call for the four GET calls. *)
Theorem status_text_reaches_the_failure_action :
  exists task_prefix : string,
  forall (reducer : State.t -> action -> State.t) (c : config)
         (text : string) (payload : completion value),
    let settled :=
      Normal {| ok := false; statusText := text; json := payload |} in
    let after (commands : list cmd) (actions : list action) :=
      exists c2,
        settle reducer (List.length (pending c)) settled
          (exec reducer commands c) = Some c2
        /\ new_actions c c2 = actions in
    (forall itemId judgement successCallback,
        after (submitJudgementToBackend itemId judgement successCallback)
          [recordJudgement itemId judgement;
           recordJudgementFailure itemId text])
    /\ (forall judgements,
        after (submitBatchJudgementsToBackend judgements)
          [recordJudgements judgements;
           recordJudgementsFailure judgements text])
    /\ (forall state, exists data,
        after (submitDataToScore state)
          [submitData data; submitDataFailure text])
    /\ after getTask [fetchTask; fetchTaskFailure (task_prefix ++ text)]
    /\ after getStats
         [fetchStats; fetchStatsFailure ("Error fetching stats: " ++ text)]
    /\ (forall params,
        after (getNextBatch params)
          [fetchItems;
           fetchItemsFailure ("Error fetching batch items: " ++ text)])
    /\ after fetchNextBatchItemsBatch
         [fetchBatchItems;
          fetchBatchItemsFailure ("Error fetching batch items: " ++ text)].
Proof.
  eexists. intros reducer c text payload settled after.
  assert (Hrun : forall first r k actions,
             actions_of (k settled) = actions ->
             after [Dispatch first; Fetch r k] (first :: actions)).
  { intros first r k actions <-. subst after.
    cbn [exec run1 store pending sent dispatched console].
    rewrite settle_snoc. eexists. split; [reflexivity|].
    observe. reflexivity. }
  repeat match goal with |- _ /\ _ => split end.
  - intros itemId judgement successCallback. now apply Hrun.
  - intros judgements. now apply Hrun.
  - intros state. eexists. now apply Hrun.
  - now apply Hrun.
  - now apply Hrun.
  - intros params. now apply Hrun.
  - now apply Hrun.
Qed.

(** C7, the claim as stated, at the task fetch: on a 500 response the
    message of the failure action is not the status text. *)
Lemma task_failure_message_is_prefixed :
  let c := init (sample_state false 0 []) in
  exists c2 message,
    settle guard_reducer 0 (Normal (error_response "Internal Server Error"))
      (exec guard_reducer getTask c) = Some c2
    /\ dispatched c2 = [fetchTask; fetchTaskFailure message]
    /\ message <> "Internal Server Error".
Proof.
  cbv zeta. eexists. eexists.
  split; [reflexivity|]. split; [reflexivity|]. discriminate.
Qed.

(** ** C8: the request to switch to batch mode *)



(** ** C10: the query of the read-ahead fetch *)

(** C10. When a successful single submission triggers the read-ahead, the
    request it sends is a GET of [/batch?], the query string being empty
    ([getNextBatch] is called without parameters), followed by the GET of
    the statistics; this holds whatever was sent before. *)
Theorem read_ahead_sends_an_empty_query :
  forall (reducer : State.t -> action -> State.t) (judgement : value)
         (c : config) (itemId : value) (text : string) (payload : value),
    let currentIndex := Items.currentIndex (State.items (store c)) in
    let items := Items.items (State.items (store c)) in
    Judgements.submitting (State.judgements (store c)) = false ->
    get (index items currentIndex) "path" = Normal itemId ->
    has "error" payload = Normal false ->
    List.length items < currentIndex + 4 ->
    exists c1 c2,
      dispatch_submitJudgement reducer judgement c = Normal c1
      /\ settle reducer (List.length (pending c))
           (Normal {| ok := true; statusText := text; json := Normal payload |})
           c1 = Some c2
      /\ new_requests c1 c2
         = [ {| url := "/batch?"; method := GET; headers := [];
                body := None |};
             fetch_get "/history" ]
      /\ requests_of (getNextBatch None)
         = [ {| url := "/batch?"; method := GET; headers := [];
                body := None |} ].
Proof.
  intros reducer judgement c itemId text payload currentIndex items
    Hsub Hitem Herr Hlt.
  subst currentIndex items.
  enter_single Hsub Hitem.
  eexists. eexists. split; [reflexivity|].
  rewrite settle_snoc.
  cbn [catch bind Normal check_ok ok json]. rewrite Herr.
  cbn [bind Normal catch].
  split; [reflexivity|].
  observe.
  apply Nat.ltb_lt in Hlt. rewrite Hlt.
  split; reflexivity.
Qed.

Lemma read_ahead_sends_an_empty_query_witness :
  let c := init (sample_state false 7 ten_items) in
  exists c1 c2,
    dispatch_submitJudgement guard_reducer (VStr "cat") c = Normal c1
    /\ settle guard_reducer 0 (Normal (ok_response (VObj []))) c1 = Some c2
    /\ new_requests c1 c2
       = [ {| url := "/batch?"; method := GET; headers := []; body := None |};
           fetch_get "/history" ]
    /\ requests_of (getNextBatch None)
       = [ {| url := "/batch?"; method := GET; headers := [];
              body := None |} ].
Proof.
  apply (read_ahead_sends_an_empty_query guard_reducer (VStr "cat")
           (init (sample_state false 7 ten_items)) (VStr "p7") "OK" (VObj []));
    try reflexivity.
  simpl. lia.
Defined.

(** With parameters the query is their form encoding. *)
Example getNextBatch_query :
  map url (requests_of (getNextBatch
                          (Some [("sample_size", "5"); ("force_stage", "a b")])))
  = ["/batch?sample_size=5&force_stage=a+b"].
Proof. reflexivity. Qed.

(** * Further properties *)

(** ** More bookkeeping *)

Lemma in_flight_exec reducer commands : forall c,
  in_flight (exec reducer commands c)
  = (in_flight c ++ map url (requests_of commands))%list.
Proof.
  induction commands as [|command rest IH]; intros c; simpl.
  - now rewrite app_nil_r.
  - rewrite IH. destruct command; simpl; try reflexivity.
    unfold in_flight; cbn [pending]. rewrite map_app. simpl.
    now rewrite <- app_assoc.
Qed.

Lemma store_exec_dispatch reducer a c :
  store (exec reducer [Dispatch a] c) = reducer (store c) a.
Proof. reflexivity. Qed.

(** Running [Dispatch first; Fetch r k] and then settling that request:
    what is dispatched and sent is [first], [r], and what the handler
    does; only the handler's requests are left in flight. *)
Lemma settle_dispatch_fetch reducer c first r k settled :
  exists c2,
    settle reducer (List.length (pending c)) settled
      (exec reducer [Dispatch first; Fetch r k] c) = Some c2
    /\ new_actions c c2 = first :: actions_of (k settled)
    /\ new_requests c c2 = r :: requests_of (k settled)
    /\ in_flight c2
       = (in_flight c ++ map url (requests_of (k settled)))%list.
Proof.
  cbn [exec run1 store pending sent dispatched console].
  rewrite settle_snoc. eexists. split; [reflexivity|].
  rewrite in_flight_exec. observe. repeat split.
Qed.

(** ** The single-item pipeline, end to end *)

(** X1. A successful single submission dispatches, once its POST settles,
    [recordJudgementSuccess], then [fetchItems] if the read-ahead test
    holds, then [fetchStats], then [showNextItem], in this order; it
    leaves in flight the item page request (if any) and the statistics
    request. *)
Theorem successful_single_submission :
  forall (reducer : State.t -> action -> State.t) (judgement : value)
         (c : config) (itemId : value) (text : string) (payload : value),
    let currentIndex := Items.currentIndex (State.items (store c)) in
    let items := Items.items (State.items (store c)) in
    let ahead := Nat.ltb (List.length items) (currentIndex + 4) in
    Judgements.submitting (State.judgements (store c)) = false ->
    get (index items currentIndex) "path" = Normal itemId ->
    has "error" payload = Normal false ->
    exists c1 c2,
      dispatch_submitJudgement reducer judgement c = Normal c1
      /\ settle reducer (List.length (pending c))
           (Normal {| ok := true; statusText := text; json := Normal payload |})
           c1 = Some c2
      /\ new_actions c c2
         = ([recordJudgement itemId judgement; recordJudgementSuccess itemId]
            ++ (if ahead then [fetchItems] else [])
            ++ [fetchStats; showNextItem])%list
      /\ in_flight c2
         = (in_flight c ++ (if ahead then ["/batch?"] else [])
            ++ ["/history"])%list.
Proof.
  intros reducer judgement c itemId text payload currentIndex items ahead
    Hsub Hitem Herr.
  subst currentIndex items.
  enter_single Hsub Hitem.
  eexists. eexists. split; [reflexivity|].
  rewrite settle_snoc.
  cbn [catch bind Normal check_ok ok json]. rewrite Herr.
  cbn [bind Normal catch].
  split; [reflexivity|].
  rewrite in_flight_exec. observe.
  cbn [actions_of requests_of].
  rewrite actions_of_app, requests_of_app.
  fold ahead. destruct ahead; split; reflexivity.
Qed.

Lemma successful_single_submission_witness :
  let c := init (sample_state false 2 ten_items) in
  exists c1 c2,
    dispatch_submitJudgement guard_reducer (VStr "cat") c = Normal c1
    /\ settle guard_reducer 0 (Normal (ok_response (VObj []))) c1 = Some c2
    /\ new_actions c c2
       = [recordJudgement (VStr "p2") (VStr "cat");
          recordJudgementSuccess (VStr "p2"); fetchStats; showNextItem]
    /\ in_flight c2 = ["/history"].
Proof.
  apply (successful_single_submission guard_reducer (VStr "cat")
           (init (sample_state false 2 ten_items)) (VStr "p2") "OK" (VObj []));
    reflexivity.
Defined.

(** X2. With the guard down and no item under the cursor (the index is
    past the end of the items, in particular when there are none, or the
    element there is [null]), [submitJudgement] throws on reading [path]:
    nothing is dispatched and nothing is sent.  With the guard up the
    same call returns normally, the guard being tested first. *)
Theorem submitJudgement_without_current_item :
  forall (reducer : State.t -> action -> State.t) (judgement : value)
         (c : config),
    let currentIndex := Items.currentIndex (State.items (store c)) in
    let items := Items.items (State.items (store c)) in
    List.length items <= currentIndex \/ nth_error items currentIndex = Some VNull ->
    (Judgements.submitting (State.judgements (store c)) = false ->
     exists message,
       dispatch_submitJudgement reducer judgement c = Throw message
       /\ submitJudgement judgement (store c) = Throw message)
    /\ (Judgements.submitting (State.judgements (store c)) = true ->
        exists c', dispatch_submitJudgement reducer judgement c = Normal c').
Proof.
  intros reducer judgement c currentIndex items Hmissing.
  assert (Hitem : index items currentIndex = VUndefined
                  \/ index items currentIndex = VNull).
  { destruct Hmissing as [Hpast | Hnull].
    - left. unfold index. now apply nth_overflow.
    - right. unfold index. now apply nth_error_nth. }
  unfold dispatch_submitJudgement, submitJudgement.
  fold currentIndex items.
  split; intros Hsub; rewrite Hsub.
  - destruct Hitem as [-> | ->]; eexists; split; reflexivity.
  - eexists. reflexivity.
Qed.

Lemma submitJudgement_without_current_item_witness :
  let c := init (sample_state false 0 []) in
  (Judgements.submitting (State.judgements (store c)) = false ->
   exists message,
     dispatch_submitJudgement guard_reducer (VStr "cat") c = Throw message
     /\ submitJudgement (VStr "cat") (store c) = Throw message)
  /\ (Judgements.submitting (State.judgements (store c)) = true ->
      exists c', dispatch_submitJudgement guard_reducer (VStr "cat") c
                 = Normal c').
Proof.
  apply (submitJudgement_without_current_item guard_reducer (VStr "cat")
           (init (sample_state false 0 []))).
  left. simpl. lia.
Defined.

(** ** The batch pipeline, end to end *)

(** X3. A successful batch submission dispatches [recordJudgements], and
    once its POST settles [recordJudgementsSuccess], [fetchBatchItems] and
    [fetchStats], in this order and whatever the state; it sends the GET
    of the next batch page and of the statistics and leaves both in
    flight. *)
Theorem successful_batch_submission :
  forall (reducer : State.t -> action -> State.t) (judgements : value)
         (c : config) (text : string) (payload : value),
    Judgements.submitting (State.judgements (store c)) = false ->
    has "error" payload = Normal false ->
    exists c2,
      settle reducer (List.length (pending c))
        (Normal {| ok := true; statusText := text; json := Normal payload |})
        (dispatch_submitBatchJudgements reducer judgements c) = Some c2
      /\ new_actions c c2
         = [recordJudgements judgements; recordJudgementsSuccess judgements;
            fetchBatchItems; fetchStats]
      /\ new_requests c c2
         = [fetch_post_json "/judgements/batch"
              (VObj [("labels", judgements)]);
            fetch_get "/batch_items_batch"; fetch_get "/history"]
      /\ in_flight c2
         = (in_flight c ++ ["/batch_items_batch"; "/history"])%list.
Proof.
  intros reducer judgements c text payload Hsub Herr.
  unfold dispatch_submitBatchJudgements, submitBatchJudgements.
  rewrite Hsub. unfold submitBatchJudgementsToBackend.
  destruct (settle_dispatch_fetch reducer c (recordJudgements judgements)
              (fetch_post_json "/judgements/batch"
                 (VObj [("labels", judgements)]))
              (fun settled =>
                 catch (response <- settled ;;
                        json <- check_ok response ;;
                        has_error <- has "error" json ;;
                        if has_error : bool then
                          error <- get json "error" ;;
                          message <- Error_message error ;;
                          Throw message
                        else
                          Normal (Dispatch (recordJudgementsSuccess judgements)
                                    :: fetchNextBatchItemsBatch ++ getStats)%list)
                   (fun message =>
                      [Dispatch (recordJudgementsFailure judgements message)]))
              (Normal {| ok := true; statusText := text;
                         json := Normal payload |}))
    as (c2 & Hsettle & Hactions & Hrequests & Hflight).
  exists c2. split; [exact Hsettle|].
  rewrite Hactions, Hrequests, Hflight.
  cbn [catch bind Normal check_ok ok json]. rewrite Herr.
  repeat split.
Qed.

Lemma successful_batch_submission_witness :
  let c := init (sample_state false 0 []) in
  exists c2,
    settle guard_reducer 0 (Normal (ok_response (VObj [])))
      (dispatch_submitBatchJudgements guard_reducer (VArr []) c) = Some c2
    /\ new_actions c c2
       = [recordJudgements (VArr []); recordJudgementsSuccess (VArr []);
          fetchBatchItems; fetchStats]
    /\ new_requests c c2
       = [fetch_post_json "/judgements/batch" (VObj [("labels", VArr [])]);
          fetch_get "/batch_items_batch"; fetch_get "/history"]
    /\ in_flight c2 = ["/batch_items_batch"; "/history"].
Proof.
  apply (successful_batch_submission guard_reducer (VArr [])
           (init (sample_state false 0 [])) "OK" (VObj [])); reflexivity.
Defined.

(** X4. When the POST of a batch submission fails, by a non-success status
    or by an [error] field, its settlement dispatches
    [recordJudgementsFailure] with the judgements and the message and
    nothing else: no next batch page, no statistics, nothing left in
    flight by it. *)
Theorem failed_batch_submission :
  forall (reducer : State.t -> action -> State.t) (judgements : value)
         (c : config) (settled : completion response) (message : string),
    Judgements.submitting (State.judgements (store c)) = false ->
    failure settled message ->
    exists c2,
      settle reducer (List.length (pending c)) settled
        (dispatch_submitBatchJudgements reducer judgements c) = Some c2
      /\ new_actions c c2
         = [recordJudgements judgements;
            recordJudgementsFailure judgements message]
      /\ new_requests c c2
         = [fetch_post_json "/judgements/batch"
              (VObj [("labels", judgements)])]
      /\ in_flight c2 = in_flight c.
Proof.
  intros reducer judgements c settled message Hsub Hfail.
  unfold dispatch_submitBatchJudgements, submitBatchJudgements.
  rewrite Hsub. unfold submitBatchJudgementsToBackend.
  match goal with
  | |- context [exec reducer [Dispatch ?a; Fetch ?r ?k] c] =>
      destruct (settle_dispatch_fetch reducer c a r k settled)
        as (c2 & Hsettle & Hactions & Hrequests & Hflight)
  end.
  exists c2. split; [exact Hsettle|].
  rewrite Hactions, Hrequests, Hflight.
  destruct Hfail as [text payload | text fields error Herror].
  - cbn. rewrite app_nil_r. repeat split.
  - destruct (has_error_field fields error Herror) as [Hhas Hget].
    cbn [catch bind Normal check_ok ok json]. rewrite Hhas.
    cbn [bind Normal]. rewrite Hget. cbn [bind Normal]. rewrite catch_thrown.
    cbn. rewrite app_nil_r. repeat split.
Qed.

Lemma failed_batch_submission_witness :
  let c := init (sample_state false 0 []) in
  exists c2,
    settle guard_reducer 0
      (Normal (ok_response (VObj [("error", VStr "unknown label")])))
      (dispatch_submitBatchJudgements guard_reducer (VArr []) c) = Some c2
    /\ new_actions c c2
       = [recordJudgements (VArr []);
          recordJudgementsFailure (VArr []) "unknown label"]
    /\ new_requests c c2
       = [fetch_post_json "/judgements/batch" (VObj [("labels", VArr [])])]
    /\ in_flight c2 = in_flight c.
Proof.
  apply (failed_batch_submission guard_reducer (VArr [])
           (init (sample_state false 0 []))
           (Normal (ok_response (VObj [("error", VStr "unknown label")])))
           "unknown label").
  - reflexivity.
  - apply (domain_failure "OK" [("error", VStr "unknown label")]
             (VStr "unknown label")). reflexivity.
Defined.

(** ** Failures of every call *)

(** X5. When [fetch] rejects or the body of a successful response is not
    JSON, every call dispatches its failure action with the message of
    that error (after the call's prefix for the four GET calls) and sends
    nothing further. *)
Theorem unreadable_response_fails_every_call :
  forall (reducer : State.t -> action -> State.t) (c : config)
         (settled : completion response) (message : string),
    unreadable settled message ->
    let after (commands : list cmd) (actions : list action) :=
      exists c2,
        settle reducer (List.length (pending c)) settled
          (exec reducer commands c) = Some c2
        /\ new_actions c c2 = actions
        /\ in_flight c2 = in_flight c in
    (forall itemId judgement successCallback,
        after (submitJudgementToBackend itemId judgement successCallback)
          [recordJudgement itemId judgement;
           recordJudgementFailure itemId message])
    /\ (forall judgements,
        after (submitBatchJudgementsToBackend judgements)
          [recordJudgements judgements;
           recordJudgementsFailure judgements message])
    /\ (forall state, exists data,
        after (submitDataToScore state)
          [submitData data; submitDataFailure message])
    /\ after getTask
         [fetchTask; fetchTaskFailure ("Error fetching stats: " ++ message)]
    /\ after getStats
         [fetchStats; fetchStatsFailure ("Error fetching stats: " ++ message)]
    /\ (forall params,
        after (getNextBatch params)
          [fetchItems;
           fetchItemsFailure ("Error fetching batch items: " ++ message)])
    /\ after fetchNextBatchItemsBatch
         [fetchBatchItems;
          fetchBatchItemsFailure ("Error fetching batch items: " ++ message)].
Proof.
  intros reducer c settled message Hbad after. subst after.
  assert (Hrun : forall first r k actions,
             actions_of (k settled) = actions ->
             requests_of (k settled) = [] ->
             exists c2,
               settle reducer (List.length (pending c)) settled
                 (exec reducer [Dispatch first; Fetch r k] c) = Some c2
               /\ new_actions c c2 = first :: actions
               /\ in_flight c2 = in_flight c).
  { intros first r k actions <- Hnone.
    destruct (settle_dispatch_fetch reducer c first r k settled)
      as (c2 & Hsettle & Hactions & _ & Hflight).
    exists c2. rewrite Hflight, Hnone. simpl. rewrite app_nil_r.
    repeat split; assumption. }
  destruct Hbad as [message | text message];
    (repeat match goal with |- _ /\ _ => split end);
    intros;
    try (apply Hrun; reflexivity);
    (eexists; apply Hrun; reflexivity).
Qed.

Lemma unreadable_response_fails_every_call_witness :
  exists c2,
    settle guard_reducer 0 (Throw "Failed to fetch")
      (exec guard_reducer getStats (init (sample_state false 0 []))) = Some c2
    /\ new_actions (init (sample_state false 0 [])) c2
       = [fetchStats; fetchStatsFailure "Error fetching stats: Failed to fetch"]
    /\ in_flight c2 = in_flight (init (sample_state false 0 [])).
Proof.
  exact (proj1 (proj2 (proj2 (proj2 (proj2
           (unreadable_response_fails_every_call guard_reducer
              (init (sample_state false 0 [])) (Throw "Failed to fetch")
              "Failed to fetch" (fetch_rejected "Failed to fetch"))))))).
Defined.

(** X6. The POST calls test ['error' in json], which throws on a payload
    that is not an object: a successful response whose JSON is [null], a
    boolean, a number or a string makes each of them dispatch its failure
    action, and no success action. *)
Theorem primitive_payload_fails_the_post_calls :
  forall (reducer : State.t -> action -> State.t) (c : config)
         (text : string) (payload : value),
    primitive payload ->
    let settled :=
      Normal {| ok := true; statusText := text; json := Normal payload |} in
    let after (commands : list cmd) (actions : list action) :=
      exists c2,
        settle reducer (List.length (pending c)) settled
          (exec reducer commands c) = Some c2
        /\ new_actions c c2 = actions
        /\ in_flight c2 = in_flight c in
    exists message,
      has "error" payload = Throw message
      /\ (forall itemId judgement successCallback,
          after (submitJudgementToBackend itemId judgement successCallback)
            [recordJudgement itemId judgement;
             recordJudgementFailure itemId message])
      /\ (forall judgements,
          after (submitBatchJudgementsToBackend judgements)
            [recordJudgements judgements;
             recordJudgementsFailure judgements message])
      /\ (forall state, exists data,
          after (submitDataToScore state)
            [submitData data; submitDataFailure message]).
Proof.
  intros reducer c text payload Hprim settled after. subst after.
  assert (Hthrow : exists message, has "error" payload = Throw message).
  { destruct payload; try contradiction; eexists; reflexivity. }
  destruct Hthrow as [message Hthrow]. exists message.
  split; [exact Hthrow|].
  assert (Hrun : forall first r k,
             actions_of (k settled) = actions_of (k (Throw message)) ->
             requests_of (k settled) = [] ->
             exists c2,
               settle reducer (List.length (pending c)) settled
                 (exec reducer [Dispatch first; Fetch r k] c) = Some c2
               /\ new_actions c c2 = first :: actions_of (k (Throw message))
               /\ in_flight c2 = in_flight c).
  { intros first r k Hsame Hnone.
    destruct (settle_dispatch_fetch reducer c first r k settled)
      as (c2 & Hsettle & Hactions & _ & Hflight).
    exists c2. rewrite Hflight, Hnone, Hactions, Hsame. simpl.
    rewrite app_nil_r. repeat split; assumption. }
  repeat match goal with |- _ /\ _ => split end.
  - intros itemId judgement successCallback.
    apply Hrun; subst settled;
      cbn [catch bind Normal check_ok ok json]; rewrite Hthrow; reflexivity.
  - intros judgements.
    apply Hrun; subst settled;
      cbn [catch bind Normal check_ok ok json]; rewrite Hthrow; reflexivity.
  - intros state. eexists.
    apply Hrun; subst settled;
      cbn [catch bind Normal check_ok ok json]; rewrite Hthrow; reflexivity.
Qed.

Lemma primitive_payload_fails_the_post_calls_witness :
  exists message,
    has "error" VNull = Throw message
    /\ exists c2,
        settle guard_reducer 0 (Normal (ok_response VNull))
          (exec guard_reducer (submitBatchJudgementsToBackend (VArr []))
             (init (sample_state false 0 []))) = Some c2
        /\ new_actions (init (sample_state false 0 [])) c2
           = [recordJudgements (VArr []);
              recordJudgementsFailure (VArr []) message]
        /\ in_flight c2 = in_flight (init (sample_state false 0 [])).
Proof.
  destruct (primitive_payload_fails_the_post_calls guard_reducer
              (init (sample_state false 0 [])) "OK" VNull I)
    as (message & Hthrow & _ & Hbatch & _).
  exists message. split; [exact Hthrow|]. exact (Hbatch (VArr [])).
Defined.

(** ** The scoring call *)

(** X7. [submitDataToScore] always dispatches [submitData] and sends one
    JSON POST to [/predict] whose body is the serialization of the data it
    dispatched.  The data is [{type:'images', urls:[urlSequence]}] for an
    image task, [{type:'text', texts:[text]}] for a text task, and [null]
    for every other [dataType]: the request goes out all the same, with
    the body [null]. *)
Theorem submitDataToScore_request :
  forall (reducer : State.t -> action -> State.t) (c : config),
    let state := store c in
    let c1 := exec reducer (submitDataToScore state) c in
    exists data,
      new_actions c c1 = [submitData data]
      /\ new_requests c c1
         = [{| url := "/predict";
               method := POST;
               headers := [("Content-Type", "application/json")];
               body := Some (JSON_stringify data) |}]
      /\ in_flight c1 = (in_flight c ++ ["/predict"])%list
      /\ (Task.dataType (State.task state) = VStr "images" ->
          data = VObj [("type", VStr "images");
                       ("urls", VArr [Demo.urlSequence (State.demo state)])])
      /\ (Task.dataType (State.task state) = VStr "text" ->
          data = VObj [("type", VStr "text");
                       ("texts", VArr [Demo.text (State.demo state)])])
      /\ (Task.dataType (State.task state) <> VStr "images" ->
          Task.dataType (State.task state) <> VStr "text" ->
          data = VNull /\ JSON_stringify data = VNull).
Proof.
  intros reducer c state c1. subst c1.
  unfold submitDataToScore. fold state.
  eexists. rewrite in_flight_exec. observe.
  split; [reflexivity|]. split; [reflexivity|]. split; [reflexivity|].
  destruct (strict_eq_string (Task.dataType (State.task state)) "images")
    eqn:Himages;
    [|destruct (strict_eq_string (Task.dataType (State.task state)) "text")
        eqn:Htext].
  - apply strict_eq_string_true in Himages.
    split; [reflexivity|]. split.
    + intros Htext. rewrite Himages in Htext. discriminate Htext.
    + intros Hno. contradiction.
  - apply strict_eq_string_true in Htext.
    split; [|split].
    + intros H. rewrite Htext in H. discriminate H.
    + reflexivity.
    + intros _ Hno. contradiction.
  - split; [|split].
    + intros H. apply strict_eq_string_true in H.
      rewrite H in Himages. discriminate Himages.
    + intros H. apply strict_eq_string_true in H.
      rewrite H in Htext. discriminate Htext.
    + intros _ _. split; reflexivity.
Qed.

Lemma submitDataToScore_request_witness :
  let c := init (sample_state false 0 []) in
  let c1 := exec guard_reducer (submitDataToScore (store c)) c in
  exists data,
    new_actions c c1 = [submitData data]
    /\ new_requests c c1
       = [{| url := "/predict";
             method := POST;
             headers := [("Content-Type", "application/json")];
             body := Some (JSON_stringify data) |}]
    /\ in_flight c1 = (in_flight c ++ ["/predict"])%list
    /\ (VStr "images" = VStr "images" ->
        data = VObj [("type", VStr "images");
                     ("urls", VArr [VStr EmptyString])])
    /\ (VStr "images" = VStr "text" ->
        data = VObj [("type", VStr "text");
                     ("texts", VArr [VStr EmptyString])])
    /\ (VStr "images" <> VStr "images" ->
        VStr "images" <> VStr "text" ->
        data = VNull /\ JSON_stringify data = VNull).
Proof.
  exact (submitDataToScore_request guard_reducer
           (init (sample_state false 0 []))).
Defined.

(** ** Every settlement has one outcome *)

(** X8. However its request settles (rejection, any status, any body), each
    of the four GET calls and the scoring call dispatches exactly one
    action in response, the success action of the call (or, for the batch
    page, the completion) or its failure action, and sends nothing
    further. *)
Theorem one_outcome_per_settlement :
  forall (reducer : State.t -> action -> State.t) (c : config)
         (settled : completion response),
    let after (commands : list cmd) (first : action)
            (outcome : action -> Prop) :=
      exists c2 a,
        settle reducer (List.length (pending c)) settled
          (exec reducer commands c) = Some c2
        /\ new_actions c c2 = [first; a]
        /\ outcome a
        /\ in_flight c2 = in_flight c in
    after getTask fetchTask
      (fun a => (exists json, a = fetchTaskSuccess json)
                \/ (exists message, a = fetchTaskFailure message))
    /\ after getStats fetchStats
         (fun a => (exists json, a = fetchStatsSuccess json)
                   \/ (exists message, a = fetchStatsFailure message))
    /\ (forall params,
        after (getNextBatch params) fetchItems
          (fun a => (exists json, a = fetchItemsSuccess json)
                    \/ (exists message, a = fetchItemsFailure message)))
    /\ after fetchNextBatchItemsBatch fetchBatchItems
         (fun a => a = batchLabellingComplete
                   \/ (exists json, a = fetchBatchItemsSuccess json)
                   \/ (exists message, a = fetchBatchItemsFailure message))
    /\ (forall state, exists data,
        after (submitDataToScore state) (submitData data)
          (fun a => (exists json, a = submitDataSuccess json)
                    \/ (exists message, a = submitDataFailure message))).
Proof.
  intros reducer c settled after. subst after.
  assert (Hrun : forall first r k a (outcome : action -> Prop),
             actions_of (k settled) = [a] /\ requests_of (k settled) = []
             /\ outcome a ->
             exists c2 a,
               settle reducer (List.length (pending c)) settled
                 (exec reducer [Dispatch first; Fetch r k] c) = Some c2
               /\ new_actions c c2 = [first; a]
               /\ outcome a
               /\ in_flight c2 = in_flight c).
  { intros first r k a outcome (Hone & Hnone & Hout).
    destruct (settle_dispatch_fetch reducer c first r k settled)
      as (c2 & Hsettle & Hactions & _ & Hflight).
    exists c2, a. rewrite Hflight, Hnone, Hactions, Hone. simpl.
    rewrite app_nil_r. repeat split; assumption. }
  assert (Hhas : forall json : value,
             (exists message, has "error" json = Throw message)
             \/ has "error" json = Normal false
             \/ (has "error" json = Normal true
                 /\ exists error, get json "error" = Normal error)).
  { intros [| | | | |elems|fields]; try (left; eexists; reflexivity).
    - right; left; reflexivity.
    - unfold has, get. destruct (lookup "error" fields).
      + right; right. split; [reflexivity | eexists; reflexivity].
      + right; left; reflexivity. }
  destruct settled as [message | [[|] text [message | payload]]];
    (repeat match goal with |- _ /\ _ => split end); intros.
  all: try (eapply Hrun;
            cbn [catch bind Normal Throw check_ok ok json statusText
                   actions_of requests_of];
            repeat split; eauto; fail).
  all: try (eexists; eapply Hrun;
            cbn [catch bind Normal Throw check_ok ok json statusText
                   actions_of requests_of];
            repeat split; eauto; fail).
  - destruct (get payload "done") as [message | done] eqn:Hdone;
      [|destruct (truthy done) eqn:Htruthy];
      eapply Hrun;
      cbn [catch bind Normal Throw check_ok ok json statusText];
      rewrite Hdone; cbn [bind catch]; rewrite ?Htruthy;
      repeat split; eauto.
  - eexists.
    destruct (Hhas payload) as [[message H] | [H | [H [error Herror]]]];
      eapply Hrun;
      cbn [catch bind Normal Throw check_ok ok json statusText];
      rewrite H; cbn [bind catch]; rewrite ?Herror; cbn [bind Normal];
      rewrite ?catch_thrown; cbn [bind catch Throw];
      repeat split; eauto.
Qed.

(** ** What the thunks can ever send or dispatch *)

Lemma has_error_cases (payload : value) :
  (exists message, has "error" payload = Throw message)
  \/ has "error" payload = Normal false
  \/ (has "error" payload = Normal true
      /\ exists error, get payload "error" = Normal error).
Proof.
  destruct payload as [| | | | |elems|fields];
    try (left; eexists; reflexivity).
  - right; left; reflexivity.
  - unfold has, get. destruct (lookup "error" fields).
    + right; right. split; [reflexivity | eexists; reflexivity].
    + right; left; reflexivity.
Qed.

Lemma always_app PA PR a b :
  always PA PR a -> always PA PR b -> always PA PR (a ++ b).
Proof.
  induction 1; intros Hb; simpl; try constructor; auto.
Qed.

Lemma always_impl (PA PA' : action -> Prop) (PR PR' : request -> Prop)
    commands :
  (forall a, PA a -> PA' a) -> (forall r, PR r -> PR' r) ->
  always PA PR commands -> always PA' PR' commands.
Proof.
  intros HA HR. induction 1; constructor; auto.
Qed.

Lemma well_formed_fetch_get u :
  u = "/task" \/ u = "/history" \/ u = "/batch_items_batch"
  \/ (exists query, u = "/batch?" ++ query) ->
  well_formed (fetch_get u).
Proof. intros H. left. repeat split; assumption. Qed.

Lemma well_formed_fetch_post_json u payload :
  u = "/judgements" \/ u = "/judgements/batch" \/ u = "/predict" ->
  well_formed (fetch_post_json u payload).
Proof. intros H. right. repeat split; [discriminate | assumption]. Qed.

Section Always.

(** What holds of the actions and requests of the module: no action is one
    of the view's, every request has one of the seven shapes. *)
Let PA (a : action) : Prop := view_action a = false.
Let PR (r : request) : Prop := well_formed r.

Ltac step_always :=
  first
    [ apply always_nil
    | apply always_dispatch; [reflexivity|]
    | apply always_log
    | apply always_fetch;
      [ first [ apply well_formed_fetch_get; eauto 6
              | apply well_formed_fetch_post_json; eauto ]
      | let settled := fresh "settled" in
        let message := fresh "message" in
        let text := fresh "text" in
        let payload := fresh "payload" in
        intros settled;
        destruct settled as [message | [[|] text [message | payload]]];
        cbn [catch bind Normal Throw check_ok ok json statusText]
      | ] ].

Lemma always_getStats : always PA PR getStats.
Proof. unfold getStats. repeat step_always. Qed.

Lemma always_getTask : always PA PR getTask.
Proof. unfold getTask. repeat step_always. Qed.

Lemma always_getNextBatch params : always PA PR (getNextBatch params).
Proof. unfold getNextBatch. repeat step_always. Qed.

Lemma always_fetchNextBatchItemsBatch : always PA PR fetchNextBatchItemsBatch.
Proof.
  unfold fetchNextBatchItemsBatch. repeat step_always.
  destruct (get payload "done") as [message' | done]; cbn [bind catch];
    [|destruct (truthy done)]; repeat step_always.
Qed.

Lemma always_submitDataToScore state : always PA PR (submitDataToScore state).
Proof.
  unfold submitDataToScore. repeat step_always.
  destruct (has_error_cases payload) as [[m H] | [H | [H [error Herror]]]];
    rewrite H; cbn [bind catch]; rewrite ?Herror; cbn [bind Normal];
      rewrite ?catch_thrown; cbn [bind catch Throw];
    repeat step_always.
Qed.

Lemma always_submitBatchJudgementsToBackend judgements :
  always PA PR (submitBatchJudgementsToBackend judgements).
Proof.
  unfold submitBatchJudgementsToBackend. repeat step_always.
  destruct (has_error_cases payload) as [[m H] | [H | [H [error Herror]]]];
    rewrite H; cbn [bind catch]; rewrite ?Herror; cbn [bind Normal];
      rewrite ?catch_thrown; cbn [bind catch Throw].
  - repeat step_always.
  - apply always_dispatch; [reflexivity|].
    apply always_app;
      [apply always_fetchNextBatchItemsBatch | apply always_getStats].
  - repeat step_always.
Qed.

Lemma always_submitJudgementToBackend itemId judgement successCallback :
  always PA PR successCallback ->
  always PA PR (submitJudgementToBackend itemId judgement successCallback).
Proof.
  intros Hcallback.
  unfold submitJudgementToBackend. repeat step_always.
  destruct (has_error_cases payload) as [[m H] | [H | [H [error Herror]]]];
    rewrite H; cbn [bind catch]; rewrite ?Herror; cbn [bind Normal];
      rewrite ?catch_thrown; cbn [bind catch Throw].
  - repeat step_always.
  - apply always_dispatch; [reflexivity | exact Hcallback].
  - repeat step_always.
Qed.

Lemma always_successCallback (ahead : bool) :
  always PA PR
    ((if ahead then getNextBatch None else []) ++
     getStats ++ [Dispatch showNextItem])%list.
Proof.
  apply always_app; [destruct ahead; [apply always_getNextBatch | constructor]|].
  apply always_app; [apply always_getStats | repeat step_always].
Qed.

Lemma always_entry commands : entry commands -> always PA PR commands.
Proof.
  intros [params | | | judgement state commands' Hsubmit | state
         | judgements state | judgements | ].
  - apply always_getNextBatch.
  - apply always_getStats.
  - apply always_getTask.
  - unfold submitJudgement in Hsubmit.
    destruct (Judgements.submitting (State.judgements state)).
    + injection Hsubmit as <-. repeat step_always.
    + destruct (get _ "path") as [message | itemId]; [discriminate Hsubmit|].
      injection Hsubmit as <-.
      apply always_submitJudgementToBackend, always_successCallback.
  - apply always_submitDataToScore.
  - unfold submitBatchJudgements.
    destruct (Judgements.submitting (State.judgements state)).
    + repeat step_always.
    + apply always_submitBatchJudgementsToBackend.
  - apply always_submitBatchJudgementsToBackend.
  - apply always_fetchNextBatchItemsBatch.
Qed.

End Always.

(** Every request a thunk can ever send has one of the seven shapes. *)
Lemma entry_requests_well_formed (commands : list cmd) :
  entry commands -> always (fun _ => True) well_formed commands.
Proof.
  intros Hentry.
  apply (always_impl (fun a => view_action a = false) (fun _ => True)
           well_formed well_formed);
    [trivial | trivial | now apply always_entry].
Qed.

(** X9. No thunk of the module ever dispatches [labellingComplete],
    [setIsBatchView], [setBoundingBoxClass] or one of the input-change
    actions, whatever the state and however its requests settle: in
    particular reaching the end of the items never produces the
    completion action. *)
Theorem thunks_never_dispatch_view_actions :
  forall commands : list cmd,
    entry commands ->
    always (fun a => view_action a = false) (fun _ => True) commands.
Proof.
  intros commands Hentry.
  apply (always_impl (fun a => view_action a = false)
           (fun a => view_action a = false) well_formed (fun _ => True));
    [trivial | trivial | now apply always_entry].
Qed.

Lemma thunks_never_dispatch_view_actions_witness :
  always (fun a => view_action a = false) (fun _ => True) getTask.
Proof.
  apply (thunks_never_dispatch_view_actions getTask). apply entry_getTask.
Defined.

(** ** Runs *)

Lemma Forall_remove_nth {A : Type} (P : A -> Prop) (l : list A) : forall i,
  Forall P l -> Forall P (remove_nth i l).
Proof.
  induction l as [|x l IH]; intros i H; simpl; [destruct i; constructor|].
  inversion H; subst. destruct i; [assumption|].
  constructor; auto.
Qed.

Lemma nth_error_Forall {A : Type} (P : A -> Prop) (l : list A) i x :
  Forall P l -> nth_error l i = Some x -> P x.
Proof.
  intros H Hnth. rewrite Forall_forall in H.
  apply H. eapply nth_error_In; eassumption.
Qed.

Lemma filter_remove_nth {A : Type} (f : A -> bool) (l : list A) : forall i x,
  nth_error l i = Some x ->
  List.length (filter f l)
  = List.length (filter f (remove_nth i l)) + (if f x then 1 else 0).
Proof.
  induction l as [|y l IH]; intros i x Hnth.
  - destruct i; discriminate Hnth.
  - destruct i as [|i]; simpl in *.
    + injection Hnth as ->. destruct (f x); simpl; lia.
    + specialize (IH i x Hnth). destruct (f y); simpl; lia.
Qed.

(** X10. In every configuration a session can reach, every request sent so
    far is a GET without headers or body of [/task], [/history],
    [/batch_items_batch] or [/batch?...], or a POST with a JSON content
    type and a body to [/judgements], [/judgements/batch] or
    [/predict]. *)
Theorem sent_requests_are_well_formed :
  forall (reducer : State.t -> action -> State.t) (s : State.t) (c : config),
    reachable reducer s c -> Forall well_formed (sent c).
Proof.
  intros reducer s c Hreach.
  set (W := always (fun _ => True) well_formed).
  assert (Hexec : forall commands, W commands -> forall c0,
             Forall well_formed (sent c0) ->
             Forall (fun p => forall settled, W (snd p settled)) (pending c0) ->
             Forall well_formed (sent (exec reducer commands c0))
             /\ Forall (fun p => forall settled, W (snd p settled))
                  (pending (exec reducer commands c0))).
  { induction 1 as [|a rest _ _ IH|line rest _ IH|r k rest Hr Hk _ _ IH];
      intros c0 Hsent Hpending; simpl.
    - split; assumption.
    - apply IH; assumption.
    - apply IH; assumption.
    - apply IH; cbn [sent pending run1]; apply Forall_app; split;
        try assumption.
      + apply Forall_cons; [exact Hr | constructor].
      + apply Forall_cons; [exact Hk | constructor]. }
  assert (Hinv : Forall well_formed (sent c)
                 /\ Forall (fun p => forall settled, W (snd p settled))
                      (pending c)).
  { induction Hreach as [|c c' _ [Hsent Hpending] Hstep].
    - split; constructor.
    - assert (Hentry : forall commands, entry commands ->
                 Forall well_formed (sent (exec reducer commands c))
                 /\ Forall (fun p => forall settled, W (snd p settled))
                      (pending (exec reducer commands c))).
      { intros commands He. apply Hexec; try assumption.
        now apply entry_requests_well_formed. }
      destruct Hstep as [judgement c c' Hsubmit | judgements c | c | c
                        | params c | c | c | a c Ha | i settled c c' Hsettle].
      + unfold dispatch_submitJudgement in Hsubmit.
        destruct (submitJudgement judgement (store c)) as [m|commands] eqn:E;
          [discriminate Hsubmit|].
        injection Hsubmit as <-.
        apply Hentry. econstructor; eassumption.
      + apply Hentry. constructor.
      + apply Hentry. constructor.
      + apply Hentry. constructor.
      + apply Hentry. constructor.
      + apply Hentry. constructor.
      + apply Hentry. constructor.
      + apply Hexec; try assumption. repeat constructor.
      + unfold settle in Hsettle.
        destruct (nth_error (pending c) i) as [[r k]|] eqn:Hnth;
          [|discriminate Hsettle].
        injection Hsettle as <-.
        apply Hexec; cbn [sent pending]; try assumption.
        * exact (nth_error_Forall _ _ _ _ Hpending Hnth settled).
        * now apply Forall_remove_nth. }
  exact (proj1 Hinv).
Qed.

Lemma sent_requests_are_well_formed_witness :
  Forall well_formed
    (sent (exec guard_reducer (getNextBatch (Some [("sample_size", "5")]))
             (init (sample_state false 0 [])))).
Proof.
  apply (sent_requests_are_well_formed guard_reducer (sample_state false 0 [])).
  eapply reachable_step; [apply reachable_init | apply step_getNextBatch].
Defined.

(** ** The guard over a whole session *)

Section Guard.

Variable reducer : State.t -> action -> State.t.

(** What the reducer is taken to do with the flag: the two actions that
    open a submission raise it, and no action other than the four that
    report a settled submission lowers it. *)
Hypothesis raise_single : forall s itemId judgement,
  Judgements.submitting
    (State.judgements (reducer s (recordJudgement itemId judgement))) = true.

Hypothesis raise_batch : forall s judgements,
  Judgements.submitting
    (State.judgements (reducer s (recordJudgements judgements))) = true.

Hypothesis keep : forall s a,
  settles_submission a = false ->
  Judgements.submitting (State.judgements s) = true ->
  Judgements.submitting (State.judgements (reducer s a)) = true.

Ltac step_calm :=
  first
    [ apply always_nil
    | apply always_dispatch; [reflexivity|]
    | apply always_log
    | apply always_fetch;
      [ reflexivity
      | let settled := fresh "settled" in
        let message := fresh "message" in
        let text := fresh "text" in
        let payload := fresh "payload" in
        intros settled;
        destruct settled as [message | [[|] text [message | payload]]];
        cbn [catch bind Normal Throw check_ok ok json statusText]
      | ] ].

Lemma calm_getStats : calm getStats.
Proof. unfold calm, getStats. repeat step_calm. Qed.

Lemma calm_getTask : calm getTask.
Proof. unfold calm, getTask. repeat step_calm. Qed.

Lemma calm_getNextBatch params : calm (getNextBatch params).
Proof. unfold calm, getNextBatch. repeat step_calm. Qed.

Lemma calm_fetchNextBatchItemsBatch : calm fetchNextBatchItemsBatch.
Proof.
  unfold calm, fetchNextBatchItemsBatch. repeat step_calm.
  destruct (get payload "done") as [message' | done]; cbn [bind catch];
    [|destruct (truthy done)]; repeat step_calm.
Qed.

Lemma calm_submitDataToScore state : calm (submitDataToScore state).
Proof.
  unfold calm, submitDataToScore. repeat step_calm.
  destruct (has_error_cases payload) as [[m H] | [H | [H [error Herror]]]];
    rewrite H; cbn [bind catch]; rewrite ?Herror; cbn [bind Normal];
      rewrite ?catch_thrown; cbn [bind catch Throw];
    repeat step_calm.
Qed.

Lemma calm_successCallback (ahead : bool) :
  calm ((if ahead then getNextBatch None else []) ++
        getStats ++ [Dispatch showNextItem])%list.
Proof.
  apply always_app; [destruct ahead; [apply calm_getNextBatch | constructor]|].
  apply always_app; [apply calm_getStats | repeat step_calm].
Qed.

Lemma closing_single itemId successCallback settled :
  calm successCallback ->
  closing
    (catch (response <- settled ;;
            json <- check_ok response ;;
            has_error <- has "error" json ;;
            if has_error : bool then
              error <- get json "error" ;;
              message <- Error_message error ;;
              Throw message
            else
              Normal (Dispatch (recordJudgementSuccess itemId)
                        :: successCallback))
       (fun message => [Dispatch (recordJudgementFailure itemId message)])).
Proof.
  intros Hcallback. unfold closing.
  destruct settled as [message | [[|] text [message | payload]]];
    cbn [catch bind Normal Throw check_ok ok json statusText];
    try (eexists; eexists; split; [reflexivity | constructor]).
  destruct (has_error_cases payload) as [[m H] | [H | [H [error Herror]]]];
    rewrite H; cbn [bind catch]; rewrite ?Herror; cbn [bind Normal];
      rewrite ?catch_thrown; cbn [bind catch Throw];
    eexists; eexists; (split; [reflexivity|]);
    first [exact Hcallback | constructor].
Qed.

Lemma closing_batch judgements settled :
  closing
    (catch (response <- settled ;;
            json <- check_ok response ;;
            has_error <- has "error" json ;;
            if has_error : bool then
              error <- get json "error" ;;
              message <- Error_message error ;;
              Throw message
            else
              Normal (Dispatch (recordJudgementsSuccess judgements)
                        :: fetchNextBatchItemsBatch ++ getStats)%list)
       (fun message =>
          [Dispatch (recordJudgementsFailure judgements message)])).
Proof.
  unfold closing.
  destruct settled as [message | [[|] text [message | payload]]];
    cbn [catch bind Normal Throw check_ok ok json statusText];
    try (eexists; eexists; split; [reflexivity | constructor]).
  destruct (has_error_cases payload) as [[m H] | [H | [H [error Herror]]]];
    rewrite H; cbn [bind catch]; rewrite ?Herror; cbn [bind Normal];
      rewrite ?catch_thrown; cbn [bind catch Throw];
    eexists; eexists; (split; [reflexivity|]);
    first [ apply always_app;
            [apply calm_fetchNextBatchItemsBatch | apply calm_getStats]
          | constructor].
Qed.

Lemma exec_calm commands :
  calm commands -> forall c,
  Forall handler_ok (pending c) ->
  Forall handler_ok (pending (exec reducer commands c))
  /\ submissions_in_flight (exec reducer commands c) = submissions_in_flight c
  /\ (Judgements.submitting (State.judgements (store c)) = true ->
      Judgements.submitting
        (State.judgements (store (exec reducer commands c))) = true).
Proof.
  induction 1 as [|a rest Ha _ IH|line rest _ IH|r k rest Hr Hk _ _ IH];
    intros c Hpending; cbn [exec].
  - repeat split; auto.
  - destruct (IH (run1 reducer (Dispatch a) c) Hpending)
      as (Hp & Hcount & Hflag).
    split; [exact Hp|]. split; [exact Hcount|].
    intros Hup. apply Hflag. cbn [run1 store]. now apply keep.
  - exact (IH (run1 reducer (ConsoleLog line) c) Hpending).
  - destruct (IH (run1 reducer (Fetch r k) c)) as (Hp & Hcount & Hflag).
    + cbn [run1 pending]. apply Forall_app. split; [exact Hpending|].
      apply Forall_cons; [|constructor].
      unfold handler_ok. cbn [fst snd]. rewrite Hr. exact Hk.
    + split; [exact Hp|]. split; [|exact Hflag].
      rewrite Hcount. unfold submissions_in_flight. cbn [run1 pending].
      rewrite filter_app, length_app. cbn [filter fst]. rewrite Hr.
      simpl. lia.
Qed.

Lemma invariant_calm commands c :
  calm commands -> session_invariant c -> session_invariant (exec reducer commands c).
Proof.
  intros Hcalm (Hp & Hle & Hup).
  destruct (exec_calm commands Hcalm c Hp) as (Hp' & Hcount & Hflag).
  repeat split; [exact Hp' | now rewrite Hcount |].
  rewrite Hcount. intros Hone. auto.
Qed.

Lemma invariant_open c first r k :
  session_invariant c ->
  Judgements.submitting (State.judgements (store c)) = false ->
  Judgements.submitting (State.judgements (reducer (store c) first)) = true ->
  is_submission r = true ->
  (forall settled, closing (k settled)) ->
  session_invariant (exec reducer [Dispatch first; Fetch r k] c).
Proof.
  intros (Hp & Hle & Hup) Hdown Hraise Hr Hk.
  assert (Hzero : submissions_in_flight c = 0).
  { destruct (submissions_in_flight c) as [|[|n]] eqn:E; [reflexivity | | lia].
    rewrite (Hup eq_refl) in Hdown. discriminate Hdown. }
  unfold session_invariant, submissions_in_flight in *.
  cbn [exec run1 store pending].
  rewrite filter_app, length_app. cbn [filter fst]. rewrite Hr, Hzero.
  repeat split; [|simpl; lia | intros _; exact Hraise].
  apply Forall_app. split; [exact Hp|].
  apply Forall_cons; [|constructor].
  unfold handler_ok. cbn [fst snd]. rewrite Hr. exact Hk.
Qed.

Lemma invariant_step c c' : session_invariant c -> step reducer c c' -> session_invariant c'.
Proof.
  intros Hinv Hstep.
  destruct Hstep as [judgement c c' Hsubmit | judgements c | c | c
                    | params c | c | c | a c Ha | i settled c c' Hsettle].
  - unfold dispatch_submitJudgement, submitJudgement in Hsubmit.
    destruct (Judgements.submitting (State.judgements (store c))) eqn:Hflag.
    + injection Hsubmit as <-. exact Hinv.
    + destruct (get _ "path") as [message | itemId]; [discriminate Hsubmit|].
      injection Hsubmit as <-.
      apply invariant_open; auto.
      intros settled. apply closing_single, calm_successCallback.
  - unfold dispatch_submitBatchJudgements, submitBatchJudgements.
    destruct (Judgements.submitting (State.judgements (store c))) eqn:Hflag.
    + exact Hinv.
    + apply invariant_open; auto.
      intros settled. apply closing_batch.
  - apply invariant_calm; [apply calm_getTask | exact Hinv].
  - apply invariant_calm; [apply calm_getStats | exact Hinv].
  - apply invariant_calm; [apply calm_getNextBatch | exact Hinv].
  - apply invariant_calm; [apply calm_fetchNextBatchItemsBatch | exact Hinv].
  - apply invariant_calm; [apply calm_submitDataToScore | exact Hinv].
  - apply invariant_calm; [|exact Hinv].
    apply always_dispatch; [exact Ha | constructor].
  - unfold settle in Hsettle.
    destruct (nth_error (pending c) i) as [[r k]|] eqn:Hnth;
      [|discriminate Hsettle].
    injection Hsettle as <-.
    destruct Hinv as (Hp & Hle & Hup).
    pose proof (nth_error_Forall _ _ _ _ Hp Hnth) as Hok.
    pose proof (Forall_remove_nth _ _ i Hp) as Hp'.
    unfold handler_ok in Hok. cbn [fst snd] in Hok.
    set (c0 := {| store := store c; pending := remove_nth i (pending c);
                  sent := sent c; dispatched := dispatched c;
                  console := console c |}) in *.
    assert (Hcount : submissions_in_flight c
                     = submissions_in_flight c0
                       + (if is_submission r then 1 else 0))
      by exact (filter_remove_nth (fun p => is_submission (fst p))
                  (pending c) i (r, k) Hnth).
    destruct (is_submission r).
    + destruct (Hok settled) as (a & rest & -> & Hrest).
      assert (Hzero : submissions_in_flight c0 = 0) by lia.
      change (exec reducer (Dispatch a :: rest) c0)
        with (exec reducer rest (run1 reducer (Dispatch a) c0)).
      apply invariant_calm; [exact Hrest|].
      repeat split; [exact Hp' | |];
        change (submissions_in_flight (run1 reducer (Dispatch a) c0))
          with (submissions_in_flight c0); lia.
    + apply invariant_calm; [exact (Hok settled)|].
      repeat split; [exact Hp' | lia |].
      intros Hone. apply Hup. lia.
Qed.

Lemma reachable_invariant (s : State.t) (c : config) :
  reachable reducer s c -> session_invariant c.
Proof.
  induction 1 as [|c c' _ IH Hstep].
  - split; [apply Forall_nil|]. unfold submissions_in_flight. simpl.
    split; [lia | intros H; discriminate H].
  - exact (invariant_step c c' IH Hstep).
Qed.

(** X11. Over a session in which submissions go through [submitJudgement]
    and [submitBatchJudgements] (these two, the fetching thunks and plain
    actions dispatched in any order, requests settling in any order and
    in any way; the two [...ToBackend] thunks and the four actions that
    report a settled submission not dispatched on their own), at most one
    submission request, single or batch, is in flight at any time, and
    the flag is up while it is; provided the reducer raises the flag on
    the two actions that open a submission and lowers it on none but the
    four that close one. *)
Theorem at_most_one_submission_in_flight :
  forall (s : State.t) (c : config),
    reachable reducer s c ->
    submissions_in_flight c <= 1
    /\ (submissions_in_flight c = 1 ->
        Judgements.submitting (State.judgements (store c)) = true).
Proof.
  intros s c Hreach. exact (proj2 (reachable_invariant s c Hreach)).
Qed.

End Guard.

Lemma keep_guard_reducer (s : State.t) (a : action) :
  settles_submission a = false ->
  Judgements.submitting (State.judgements s) = true ->
  Judgements.submitting (State.judgements (guard_reducer s a)) = true.
Proof.
  intros Ha Hup. destruct a; try exact Hup; try reflexivity; discriminate Ha.
Qed.

Lemma at_most_one_submission_in_flight_witness :
  let s := sample_state false 0 [] in
  let c := dispatch_submitBatchJudgements guard_reducer (VArr []) (init s) in
  submissions_in_flight c <= 1
  /\ (submissions_in_flight c = 1 ->
      Judgements.submitting (State.judgements (store c)) = true).
Proof.
  apply (at_most_one_submission_in_flight guard_reducer
           (fun _ _ _ => eq_refl) (fun _ _ => eq_refl) keep_guard_reducer
           (sample_state false 0 [])).
  eapply reachable_step;
    [apply reachable_init | apply step_submitBatchJudgements].
Defined.

(** ** C9: one flag for both pipelines *)

(** C9. Both pipelines test the same field, [state.judgements.submitting]:
    each is dropped exactly in the states where it is set.  With a reducer
    that sets it on the action that opens a submission, of either kind,
    once either pipeline has its POST in flight a further dispatch of
    either pipeline is dropped.  And with a reducer that moreover lowers
    it on no action but the four that report a settled submission, this
    holds for as long as the submission is in flight: in every
    configuration a session of the two pipelines reaches (fetching
    thunks and plain actions dispatched, other requests settling
    meanwhile), while a submission request of either kind is in flight a
    dispatch of either pipeline does nothing but log. *)
Theorem one_submitting_flag_for_both_pipelines :
  forall reducer : State.t -> action -> State.t,
    (forall s itemId judgement,
        Judgements.submitting
          (State.judgements (reducer s (recordJudgement itemId judgement)))
        = true) ->
    (forall s judgements,
        Judgements.submitting
          (State.judgements (reducer s (recordJudgements judgements)))
        = true) ->
    (forall state judgement judgements,
        (submitJudgement judgement state
         = Normal [ConsoleLog "Double called submitJudgement."]
         <-> Judgements.submitting (State.judgements state) = true)
        /\ (submitBatchJudgements judgements state
            = [ConsoleLog "Double called submitJudgements."]
            <-> Judgements.submitting (State.judgements state) = true))
    /\ (forall (c : config) judgement itemId,
        Judgements.submitting (State.judgements (store c)) = false ->
        get (index (Items.items (State.items (store c)))
               (Items.currentIndex (State.items (store c)))) "path"
        = Normal itemId ->
        exists c1,
          dispatch_submitJudgement reducer judgement c = Normal c1
          /\ in_flight c1 = (in_flight c ++ ["/judgements"])%list
          /\ both_dropped reducer c1)
    /\ (forall (c : config) judgements,
        Judgements.submitting (State.judgements (store c)) = false ->
        let c1 := dispatch_submitBatchJudgements reducer judgements c in
        in_flight c1 = (in_flight c ++ ["/judgements/batch"])%list
        /\ both_dropped reducer c1)
    /\ ((forall s a,
           settles_submission a = false ->
           Judgements.submitting (State.judgements s) = true ->
           Judgements.submitting (State.judgements (reducer s a)) = true) ->
        forall (s : State.t) (c : config),
          reachable reducer s c ->
          submissions_in_flight c <> 0 ->
          Judgements.submitting (State.judgements (store c)) = true
          /\ both_dropped reducer c).
Proof.
  intros reducer begin_single begin_batch.
  assert (Hdrop : forall c,
             Judgements.submitting (State.judgements (store c)) = true ->
             both_dropped reducer c).
  { intros c Hsub judgement judgements.
    unfold dispatch_submitJudgement, dispatch_submitBatchJudgements,
      submitJudgement, submitBatchJudgements.
    rewrite Hsub. simpl. split; [eexists; split; [reflexivity|]|];
      repeat split. }
  split; [|split; [|split]].
  - intros state judgement judgements.
    unfold submitJudgement, submitBatchJudgements.
    destruct (Judgements.submitting (State.judgements state)).
    + split; split; reflexivity.
    + split; (split; [|discriminate]).
      * destruct (get _ "path"); intros H; discriminate H.
      * intros H; discriminate H.
  - intros c judgement itemId Hsub Hitem.
    enter_single Hsub Hitem.
    eexists. split; [reflexivity|]. split.
    + unfold in_flight; cbn [pending]. now rewrite map_app.
    + apply Hdrop. cbn [store]. apply begin_single.
  - intros c judgements Hsub c1. subst c1.
    unfold dispatch_submitBatchJudgements, submitBatchJudgements.
    rewrite Hsub. unfold submitBatchJudgementsToBackend.
    cbn [exec run1 store pending sent dispatched console]. split.
    + unfold in_flight; cbn [pending]. now rewrite map_app.
    + apply Hdrop. cbn [store]. apply begin_batch.
  - intros keep s c Hreach Hflight.
    destruct (reachable_invariant reducer begin_single begin_batch keep
                s c Hreach) as (_ & Hle & Hup).
    assert (Hflag : Judgements.submitting (State.judgements (store c)) = true)
      by (apply Hup; lia).
    split; [exact Hflag | now apply Hdrop].
Qed.

(** A session in which a single submission is in flight, the statistics
    are fetched and their request fails meanwhile: the flag is still up
    and both pipelines are dropped. *)
Lemma one_submitting_flag_for_both_pipelines_witness :
  let s := sample_state false 0 [item_with "path" "a"] in
  exists c1 c2 c3,
    dispatch_submitJudgement guard_reducer (VStr "cat") (init s) = Normal c1
    /\ c2 = exec guard_reducer getStats c1
    /\ settle guard_reducer 1 (Normal (error_response "Bad Gateway")) c2
       = Some c3
    /\ in_flight c3 = ["/judgements"]
    /\ Judgements.submitting (State.judgements (store c3)) = true
    /\ both_dropped guard_reducer c3.
Proof.
  cbv zeta. eexists. eexists. eexists.
  split; [reflexivity|]. split; [reflexivity|]. split; [reflexivity|].
  split; [reflexivity|].
  apply (proj2 (proj2 (proj2
           (one_submitting_flag_for_both_pipelines guard_reducer
              (fun _ _ _ => eq_refl) (fun _ _ => eq_refl))))
           keep_guard_reducer
           (sample_state false 0 [item_with "path" "a"])).
  - eapply reachable_step;
      [eapply reachable_step;
       [eapply reachable_step;
        [apply reachable_init
        | apply (step_submitJudgement guard_reducer (VStr "cat")); reflexivity]
       | apply step_getStats]
      | apply (step_settle guard_reducer 1
                 (Normal (error_response "Bad Gateway"))); reflexivity].
  - discriminate.
Defined.

(** ** The action types *)

(** X12. The [type] strings of the thirty action creators are pairwise
    distinct: two actions with the same [type] come from the same
    creator, so no reducer case can be taken for another action's. *)
Theorem type_identifies_the_action_creator :
  forall a b : action, type a = type b <-> same_kind a b.
Proof.
  intros a b. split.
  - destruct a; destruct b; simpl; intros H;
      first [exact I | discriminate H].
  - destruct a; destruct b; simpl; intros H;
      first [reflexivity | contradiction].
Qed.

(** ** The class buttons *)

Lemma nth_error_map_index {A B : Type} (f : A -> nat -> B) (l : list A) :
  forall start i,
    nth_error (map_index f start l) i
    = option_map (fun x => f x (start + i)) (nth_error l i).
Proof.
  induction l as [|x l IH]; intros start i.
  - destruct i; reflexivity.
  - destruct i as [|i]; simpl.
    + now rewrite Nat.add_0_r.
    + rewrite IH. now rewrite Nat.add_succ_r.
Qed.

Lemma length_map_index {A B : Type} (f : A -> nat -> B) (l : list A) :
  forall start, List.length (map_index f start l) = List.length l.
Proof.
  induction l as [|x l IH]; intros start; simpl; [reflexivity|].
  now rewrite IH.
Qed.

(** X13. The bounding box view renders one button per class, in order: the
    [i]-th button shows the [i]-th class and its click dispatches
    [setBoundingBoxClass] with that class.  Its background is the [i]-th
    palette colour while [i < 16] and is undefined from the seventeenth
    class on. *)
Theorem class_buttons :
  forall classes : list value,
    List.length (LabelBoundingBoxClassView.render classes)
    = List.length classes
    /\ forall i cls,
        nth_error classes i = Some cls ->
        exists b,
          nth_error (LabelBoundingBoxClassView.render classes) i = Some b
          /\ LabelBoundingBoxClassView.judgement b = cls
          /\ LabelBoundingBoxClassView.onClick b
             = [Dispatch (setBoundingBoxClass cls)]
          /\ (i < 16 ->
              exists colour,
                LabelBoundingBoxClassView.background b = Some colour
                /\ nth_error LabelBoundingBoxClassView.CLASSIFICATION_COLORS i
                   = Some colour)
          /\ (16 <= i -> LabelBoundingBoxClassView.background b = None).
Proof.
  intros classes. unfold LabelBoundingBoxClassView.render.
  split; [apply length_map_index|].
  intros i cls Hcls. rewrite nth_error_map_index, Hcls. simpl.
  eexists. split; [reflexivity|]. simpl.
  repeat split.
  - intros Hlt.
    destruct (nth_error LabelBoundingBoxClassView.CLASSIFICATION_COLORS i)
      as [colour|] eqn:E.
    + exists colour. split; reflexivity.
    + apply nth_error_None in E. simpl in E. lia.
  - intros Hge. apply nth_error_None. simpl. lia.
Qed.

Lemma class_buttons_witness :
  exists b,
    nth_error (LabelBoundingBoxClassView.render [VStr "cat"; VStr "dog"]) 1
    = Some b
    /\ LabelBoundingBoxClassView.judgement b = VStr "dog"
    /\ LabelBoundingBoxClassView.onClick b
       = [Dispatch (setBoundingBoxClass (VStr "dog"))]
    /\ (1 < 16 ->
        exists colour,
          LabelBoundingBoxClassView.background b = Some colour
          /\ nth_error LabelBoundingBoxClassView.CLASSIFICATION_COLORS 1
             = Some colour)
    /\ (16 <= 1 -> LabelBoundingBoxClassView.background b = None).
Proof.
  exact (proj2 (class_buttons [VStr "cat"; VStr "dog"]) 1 (VStr "dog")
           eq_refl).
Defined.

(** X14. Two different buttons of the row can share a background only if
    both have none: the first sixteen classes get sixteen different
    colours. *)
Theorem class_button_colours_differ :
  forall (classes : list value) i j bi bj,
    i <> j ->
    nth_error (LabelBoundingBoxClassView.render classes) i = Some bi ->
    nth_error (LabelBoundingBoxClassView.render classes) j = Some bj ->
    LabelBoundingBoxClassView.background bi
    = LabelBoundingBoxClassView.background bj ->
    LabelBoundingBoxClassView.background bi = None
    /\ 16 <= i /\ 16 <= j.
Proof.
  intros classes i j bi bj Hij Hi Hj Hsame.
  unfold LabelBoundingBoxClassView.render in Hi, Hj.
  rewrite nth_error_map_index in Hi, Hj.
  destruct (nth_error classes i) as [ci|]; [|discriminate Hi].
  destruct (nth_error classes j) as [cj|]; [|discriminate Hj].
  simpl in Hi, Hj. injection Hi as <-. injection Hj as <-.
  cbn [LabelBoundingBoxClassView.background] in *.
  assert (Hnodup : NoDup LabelBoundingBoxClassView.CLASSIFICATION_COLORS).
  { unfold LabelBoundingBoxClassView.CLASSIFICATION_COLORS.
    repeat (apply NoDup_cons;
            [simpl; intros H;
             repeat (destruct H as [H|H]; [discriminate H|]); exact H|]).
    apply NoDup_nil. }
  rewrite NoDup_nth_error in Hnodup.
  assert (Hlen : List.length LabelBoundingBoxClassView.CLASSIFICATION_COLORS
                 = 16) by reflexivity.
  destruct (Nat.lt_ge_cases i 16) as [Hlt | Hge].
  - exfalso. apply Hij. apply Hnodup; [lia | exact Hsame].
  - destruct (Nat.lt_ge_cases j 16) as [Hlt' | Hge'].
    + exfalso. apply Hij. symmetry. apply Hnodup; [lia | now symmetry].
    + repeat split; try assumption. apply nth_error_None. lia.
Qed.

Lemma class_button_colours_differ_witness :
  let cat := {| LabelBoundingBoxClassView.background := None;
                LabelBoundingBoxClassView.judgement := VStr "cat";
                LabelBoundingBoxClassView.onClick :=
                  [Dispatch (setBoundingBoxClass (VStr "cat"))] |} in
  LabelBoundingBoxClassView.background cat = None /\ 16 <= 16 /\ 16 <= 17.
Proof.
  apply (class_button_colours_differ (repeat (VStr "cat") 18) 16 17
           {| LabelBoundingBoxClassView.background := None;
              LabelBoundingBoxClassView.judgement := VStr "cat";
              LabelBoundingBoxClassView.onClick :=
                [Dispatch (setBoundingBoxClass (VStr "cat"))] |}
           {| LabelBoundingBoxClassView.background := None;
              LabelBoundingBoxClassView.judgement := VStr "cat";
              LabelBoundingBoxClassView.onClick :=
                [Dispatch (setBoundingBoxClass (VStr "cat"))] |});
    [discriminate | reflexivity | reflexivity | reflexivity].
Defined.
